(** * A single-pass k-means partition: the clustering core of [kmeans.py]

    The development embeds the Python functions of [kmeans.py] one by one.
    Python floats and NumPy [float64] values are IEEE 754 binary64 numbers;
    they are modelled by the executable specification of the Standard Library
    ([spec_float], precision 53, maximal exponent 1024), so that NaN,
    infinities, signed zeros, overflow and underflow behave as they do
    in the program.  Exceptions are modelled by a small error monad. *)

From Stdlib Require Import ZArith Lia Ascii String.
From Stdlib Require Import Floats.SpecFloat.
From stdpp Require Import base decidable option list strings.

(** ** Binary64 arithmetic *)

Module F64.

Definition float : Type := spec_float.

Definition prec : Z := 53%Z.
Definition emax : Z := 1024%Z.

Definition add : float → float → float := SFadd prec emax.
Definition sub : float → float → float := SFsub prec emax.
Definition mul : float → float → float := SFmul prec emax.
Definition div : float → float → float := SFdiv prec emax.
Definition sqrt : float → float := SFsqrt prec emax.

(** [==] and [<=] on floats: false as soon as one side is NaN,
    and [0.0 == -0.0]. *)
Definition eqb : float → float → bool := SFeqb.
Definition leb : float → float → bool := SFleb.
Definition ltb : float → float → bool := SFltb.

Definition nan : float := S754_nan.
Definition zero : float := S754_zero false.
Definition infinity : float := S754_infinity false.

Definition is_nan (x : float) : bool :=
  match x with S754_nan => true | _ => false end.

Definition is_inf (x : float) : bool :=
  match x with S754_infinity _ => true | _ => false end.

Definition is_zero (x : float) : bool :=
  match x with S754_zero _ => true | _ => false end.

Definition is_finite (x : float) : bool :=
  match x with S754_zero _ | S754_finite _ _ _ => true | _ => false end.

(** The float nearest to the integer [m * 2^e] (ties to even). *)
Definition of_Z_exp (m e : Z) : float := binary_normalize prec emax m e false.
Definition of_Z (m : Z) : float := of_Z_exp m 0%Z.

(** [float(n)] for a length [n]. *)
Definition of_nat (n : nat) : float := of_Z (Z.of_nat n).

(** Round to the nearest integer, ties to even, keeping the sign
    (C's [rint] in the default rounding mode). *)
Definition rint (x : float) : float :=
  match x with
  | S754_finite s m e =>
      if (0 <=? e)%Z then x
      else
        let '(mrs, _) := shr (shr_record_of_loc (Zpos m) loc_Exact) e (- e)%Z in
        let z := round_nearest_even (shr_m mrs) (loc_of_shr_record mrs) in
        binary_normalize prec emax (cond_Zopp s z) 0%Z s
  | _ => x
  end.

End F64.

Abbreviation float := F64.float.

Global Instance spec_float_eq_dec : EqDecision spec_float.
Proof. solve_decision. Defined.

(** ** Exceptions *)

(** The exceptions the modelled functions can raise. *)
Inductive exn : Set :=
  | ValueError
  | IndexError
  | OverflowError
  | StopIteration.

Inductive result (A : Type) : Type :=
  | Ok (a : A)
  | Raise (e : exn).
Arguments Ok {A} a.
Arguments Raise {A} e.

Global Instance exn_eq_dec : EqDecision exn.
Proof. solve_decision. Defined.

Global Instance result_eq_dec {A} `{EqDecision A} : EqDecision (result A).
Proof. solve_decision. Defined.

Global Instance result_ret : MRet result := @Ok.
Global Instance result_bind : MBind result := λ A B f m,
  match m with
  | Ok a => f a
  | Raise e => Raise e
  end.

(** [for x in l: acc = f(acc, x)], stopping at the first exception. *)
Fixpoint for_each {A S : Type} (f : S → A → result S) (l : list A) (s : S) : result S :=
  match l with
  | [] => Ok s
  | x :: l' => s' ← f s x; for_each f l' s'
  end.

(** [[f(x) for x in l]] built by successive [append], stopping at the first
    exception. *)
Fixpoint collect {A B : Type} (f : A → result B) (l : list A) : result (list B) :=
  match l with
  | [] => Ok []
  | x :: l' => y ← f x; ys ← collect f l'; Ok (y :: ys)
  end.

(** ** Points *)

Definition Point : Type := float * float.

(** ** [euclidean_distance] *)

(** [x ** 2] on a Python float: NaN and infinities pass through, a finite [x]
    whose square is out of range raises [OverflowError], and underflow to
    zero is silent.  The C [pow(x, 2.0)] behind it is taken to be the
    correctly rounded square. *)
Definition py_pow2 (x : float) : result float :=
  match x with
  | S754_nan => Ok F64.nan
  | S754_infinity _ => Ok F64.infinity
  | S754_zero _ => Ok F64.zero
  | S754_finite _ _ _ =>
      let r := F64.mul x x in
      if F64.is_inf r then Raise OverflowError else Ok r
  end.

Definition euclidean_distance (x1 x2 y1 y2 : float) : result float :=
  a ← py_pow2 (F64.sub x2 x1);
  b ← py_pow2 (F64.sub y2 y1);
  let euclidean := F64.add a b in
  let eu_sq := F64.sqrt euclidean in
  Ok eu_sq.

(** ** [closest_centroid] *)

(** NumPy's minimum of two floats, as the reduction loop applies it:
    [(a <= b || isnan(a)) ? a : b], so that a NaN propagates. *)
Definition np_minimum (a b : float) : float :=
  if F64.leb a b || F64.is_nan a then a else b.

(** [np.amin] of a list: [ValueError] on the empty list,
    otherwise the left-to-right reduction by [np_minimum]. *)
Definition np_amin (l : list float) : result float :=
  match l with
  | [] => Raise ValueError
  | x :: l' => Ok (foldl np_minimum x l')
  end.

(** [np.where(l == m)[0]]: the indices, in increasing order, of the
    elements of [l] that compare equal to [m]; [where_from] carries the
    index of the head. *)
Fixpoint where_from (i : nat) (l : list float) (m : float) : list nat :=
  match l with
  | [] => []
  | x :: l' => if F64.eqb x m then i :: where_from (S i) l' m else where_from (S i) l' m
  end.

Definition np_where_eq (l : list float) (m : float) : list nat := where_from 0 l m.

(** The loop that fills [distances]. *)
Definition distances_to (centroids : list Point) (datapoint : Point) : result (list float) :=
  collect (λ point,
    let x1 := point.1 in
    let y1 := point.2 in
    let x2 := datapoint.1 in
    let y2 := datapoint.2 in
    euclidean_distance x1 x2 y1 y2) centroids.

Definition closest_centroid (centroids : list Point) (datapoint : Point) : result nat :=
  distances ← distances_to centroids datapoint;
  min_distance ← np_amin distances;
  let min_index := np_where_eq distances min_distance in
  match min_index with
  | [] => Raise IndexError
  | i :: _ => Ok i
  end.


(** ** [init_centroids] *)

(** [random.sample(population, k)]: [ValueError] unless [0 <= k <= n];
    otherwise the elements at the positions the generator draws.  The draw
    is the injected source of randomness: [valid_draw] says what every
    draw of the library satisfies ([k] pairwise distinct positions of the
    population). *)
Definition random_sample {A : Type} (population : list A) (k : Z) (draw : list nat)
  : result (list A) :=
  if decide (0 ≤ k ≤ Z.of_nat (length population))%Z
  then Ok (omap (λ i, population !! i) draw)
  else Raise ValueError.

Definition valid_draw (n : nat) (k : Z) (draw : list nat) : Prop :=
  Z.of_nat (length draw) = k ∧ NoDup draw ∧ Forall (λ i, i < n) draw.

Global Instance valid_draw_dec n k draw : Decision (valid_draw n k draw).
Proof. unfold valid_draw. apply _. Defined.

(** [centroids[i].append(point)]: [IndexError] when [i] is out of range. *)
Definition append_at (centroids : list (list Point)) (i : nat) (point : Point)
  : result (list (list Point)) :=
  match centroids !! i with
  | Some cluster => Ok (<[i := cluster ++ [point]]> centroids)
  | None => Raise IndexError
  end.

Definition init_centroids (datapoints : list Point) (number_clusters : Z) (draw : list nat)
  : result (list (list Point)) :=
  samples ← random_sample datapoints number_clusters draw;
  let centroids : list (list Point) := (λ cp, []) <$> samples in
  for_each (λ centroids point,
              i ← closest_centroid samples point;
              append_at centroids i point)
           datapoints centroids.

(** ** Printing *)

(** A printed line is kept as the pieces of its f-string: literal text,
    an integer, or a float (whose decimal rendering is left to the reader
    of the output). *)
Inductive fragment : Type :=
  | Txt (s : string)
  | Int (n : nat)
  | Flt (x : float).

Definition line : Type := list fragment.

(** A procedure that prints: the lines written to standard output, and
    the value returned or the exception raised. *)
Definition Py (A : Type) : Type := list line * result A.

Definition py_ret {A : Type} (a : A) : Py A := ([], Ok a).

Definition py_bind {A B : Type} (m : Py A) (f : A → Py B) : Py B :=
  match m with
  | (out, Ok a) => let '(out', r) := f a in (out ++ out', r)
  | (out, Raise e) => (out, Raise e)
  end.

Definition py_lift {A : Type} (r : result A) : Py A := ([], r).

Definition print (l : line) : Py unit := ([l], Ok ()).

Notation "m ;;; k" := (py_bind m (λ _, k)) (at level 100, k at level 200, right associativity).

(** ** [get_country] *)

(** The dictionary of [read_csv]: Python dictionaries iterate in insertion
    order, and assigning to a key that is present keeps its place. *)
Abbreviation dict := (list (string * Point)).

Fixpoint dict_set (d : dict) (k : string) (v : Point) : dict :=
  match d with
  | [] => [(k, v)]
  | (k', v') :: d' =>
      if decide (k = k') then (k, v) :: d' else (k', v') :: dict_set d' k v
  end.

(** [p == q] on the values of two tuples of two floats: both coordinates
    compare equal as floats.  This is Python's comparison of two tuples
    that share no object; the comparison of objects, which also looks at
    their identity, is [Objects.tuple_equal] below, and the two agree as soon
    as one of the points has no NaN coordinate
    ([tuple_equal_value]). *)
Definition point_eqb (p q : Point) : bool :=
  F64.eqb p.1 q.1 && F64.eqb p.2 q.2.

(** [point in cluster] on values: some element of the list compares equal
    to the point.  It is [Objects.contains] for points without NaN
    coordinate ([contains_value]); the points of a run of [init_centroids]
    that returns have none. *)
Definition point_in (point : Point) (cluster : list Point) : bool :=
  existsb (λ q, point_eqb q point) cluster.

(** The loop over [data.items()] that fills [country_list]. *)
Fixpoint countries_of (cluster : list Point) (items : dict) (country_list : list string)
  : list string :=
  match items with
  | [] => country_list
  | (country, point) :: items' =>
      if point_in point cluster
      then countries_of cluster items' (country_list ++ [country])
      else countries_of cluster items' country_list
  end.

(** [sep.join(l)] *)
Fixpoint join (sep : string) (l : list string) : string :=
  match l with
  | [] => ""
  | [s] => s
  | s :: l' => s +:+ sep +:+ join sep l'
  end.

Definition get_country (cluster : list Point) (data : dict) : Py unit :=
  let country_list := countries_of cluster data [] in
  print [Txt (join ", " country_list)] ;;;
  print [Txt "Number of countries in the cluster: "; Int (length country_list)].

(** *** [get_country] on objects

    Python's [in] and [==] look at the identity of the objects before
    their values: [point in cluster] holds as soon as an element of the
    list [is] the point, and two tuples are equal as soon as their
    items, position by position, are the same object or compare equal.
    An object is modelled by its address and its content; two objects
    are the same object when both agree. *)
Module Objects.

(** A Python float: its address and its value. *)
Definition float_object : Type := nat * float.

(** A tuple [(birthrate, life_expectancy)]: its address and its two
    items. *)
Definition tuple_object : Type := nat * (float_object * float_object).

Definition value (point : tuple_object) : Point := (point.2.1.2, point.2.2.2).

(** The mapping from country names to tuples, in insertion order. *)
Abbreviation dict := (list (string * tuple_object)).

(** [a is b] *)
Definition is_ {A : Type} `{EqDecision A} (a b : A) : bool := bool_decide (a = b).

(** The comparison that containers apply to their items
    ([PyObject_RichCompareBool] with [Py_EQ]): identity, or else [==];
    here on floats. *)
Definition float_equal (a b : float_object) : bool :=
  is_ a b || F64.eqb a.2 b.2.

(** The same comparison on tuples of two floats: identity, or else the
    items are compared position by position. *)
Definition tuple_equal (p q : tuple_object) : bool :=
  is_ p q || (float_equal p.2.1 q.2.1 && float_equal p.2.2 q.2.2).

(** [point in cluster] for a list [cluster]: the elements are compared
    with the point one after the other. *)
Definition contains (point : tuple_object) (cluster : list tuple_object) : bool :=
  existsb (λ element, tuple_equal element point) cluster.

(** The loop over [data.items()] that fills [country_list]. *)
Fixpoint countries_of (cluster : list tuple_object) (items : dict)
    (country_list : list string) : list string :=
  match items with
  | [] => country_list
  | (country, point) :: items' =>
      if contains point cluster
      then countries_of cluster items' (country_list ++ [country])
      else countries_of cluster items' country_list
  end.

Definition get_country (cluster : list tuple_object) (data : dict) : Py unit :=
  let country_list := countries_of cluster data [] in
  print [Txt (join ", " country_list)] ;;;
  print [Txt "Number of countries in the cluster: "; Int (length country_list)].

End Objects.

(** ** [mean_data] *)

(** Every eighth element of a list, from the first on. *)
Fixpoint stride8 (l : list float) : list float :=
  match l with
  | [] => []
  | x :: l1 =>
      x :: match l1 with
           | _ :: _ :: _ :: _ :: _ :: _ :: _ :: l' => stride8 l'
           | _ => []
           end
  end.

(** One of the eight accumulators of NumPy's unrolled summation loop:
    [r[j] = a[j]], then [r[j] += a[i + j]] for [i = 8, 16, ...]. *)
Definition lane (j : nat) (body : list float) : float :=
  match stride8 (drop j body) with
  | [] => F64.zero
  | x :: xs => foldl F64.add x xs
  end.

(** A block of 8 to 128 elements: eight accumulators over the largest
    multiple of eight, combined as a balanced tree, then the remaining
    elements one by one. *)
Definition block_sum (a : list float) : float :=
  let n := length a in
  let m := n - n `mod` 8 in
  let body := take m a in
  let r j := lane j body in
  let res :=
    F64.add (F64.add (F64.add (r 0) (r 1)) (F64.add (r 2) (r 3)))
            (F64.add (F64.add (r 4) (r 5)) (F64.add (r 6) (r 7))) in
  foldl F64.add res (drop m a).

(** NumPy's pairwise summation of a [float64] array: fewer than eight
    elements are added one by one from [0.], up to 128 elements go
    through [block_sum], and a longer array is split in two halves (the
    first a multiple of eight) that are summed separately.  [depth] bounds
    the number of splits; the length of the array is always enough. *)
Fixpoint pairwise_sum_rec (depth : nat) (a : list float) : float :=
  let n := length a in
  if decide (n < 8) then foldl F64.add F64.zero a
  else if decide (n ≤ 128) then block_sum a
  else match depth with
       | O => block_sum a
       | S depth' =>
           let n2 := n `div` 2 - (n `div` 2) `mod` 8 in
           F64.add (pairwise_sum_rec depth' (take n2 a))
                   (pairwise_sum_rec depth' (drop n2 a))
       end.

Definition pairwise_sum (a : list float) : float := pairwise_sum_rec (length a) a.

(** [np.sum]: the reduction starts from the identity [0.] of the addition.
    (A NumPy that starts from [-0.] instead differs in the sign of a zero
    sum only.) *)
Definition np_sum (a : list float) : float := F64.add F64.zero (pairwise_sum a).

(** [np.mean]: the sum divided by the number of elements; NaN (with a
    warning, no exception) for the empty list. *)
Definition np_mean (a : list float) : float :=
  F64.div (np_sum a) (F64.of_nat (length a)).

(** [np.round(x, decimals)] for [decimals >= 0]: multiply by the power of
    ten, round to the nearest integer, divide back. *)
Definition np_round (x : float) (decimals : nat) : float :=
  let f := F64.of_Z (10 ^ Z.of_nat decimals) in
  F64.div (F64.rint (F64.mul x f)) f.

Definition newline : string := String (ascii_of_nat 10) EmptyString.

Definition mean_data (cluster : list Point) : Py unit :=
  let '(x, y) :=
    foldl (λ '(x, y) point, (x ++ [point.1], y ++ [point.2])) ([], []) cluster in
  let average_birthrate := np_mean x in
  let average_life_expectancy := np_mean y in
  print [Txt "The mean birthrate for the cluster is ";
         Flt (np_round average_birthrate 2)] ;;;
  print [Txt "The mean life expectancy for the cluster is ";
         Flt (np_round average_life_expectancy 2)] ;;;
  print [Txt newline].

(** ** [read_csv] *)

(** [row[i]] on a list. *)
Definition index {A : Type} (row : list A) (i : nat) : result A :=
  match row !! i with
  | Some a => Ok a
  | None => Raise IndexError
  end.

(** The files that exist, each as the rows [csv.reader] yields. *)
Definition filesystem : Type := string → option (list (list string)).

(** [read_csv], over the conversion [float()] of a field to a number
    ([ValueError] for a field that is no number).  Only a missing file is
    caught. *)
Definition read_csv (py_float : string → result float) (fs : filesystem) (file : string)
  : Py dict :=
  let data_dict : dict := [] in
  match fs file with
  | None =>
      print [Txt "Please enter the correct file name!"] ;;;
      py_ret data_dict
  | Some [] => py_lift (Raise StopIteration)
  | Some (_ :: rows) =>
      py_lift (for_each (λ data_dict row,
                 country ← index row 0;
                 field1 ← index row 1;
                 birthrate ← py_float field1;
                 field2 ← index row 2;
                 life_expectancy ← py_float field2;
                 Ok (dict_set data_dict country (birthrate, life_expectancy)))
               rows data_dict)
  end.

(** Plain decimal literals, [[sign] digits [. digits]], correctly rounded:
    the form of the numeric fields of the data files.  (Python's [float]
    accepts more: exponents, [inf], [nan], surrounding white space.) *)
Definition digit_of (c : ascii) : option Z :=
  let n := nat_of_ascii c in
  if decide (48 ≤ n ≤ 57) then Some (Z.of_nat (n - 48)) else None.

Fixpoint read_digits (s : string) (acc : Z) (count : nat) : Z * nat * string :=
  match s with
  | EmptyString => (acc, count, s)
  | String c s' =>
      match digit_of c with
      | Some d => read_digits s' (10 * acc + d)%Z (S count)
      | None => (acc, count, s)
      end
  end.

Definition decimal_value (negative : bool) (m : Z) (k : nat) : float :=
  match m with
  | Zpos p =>
      SFdiv F64.prec F64.emax (S754_finite negative p 0)
            (S754_finite false (Z.to_pos (10 ^ Z.of_nat k)) 0)
  | _ => S754_zero negative
  end.

Definition float_of_decimal (s : string) : result float :=
  let '(negative, s1) :=
    match s with
    | String "-" s' => (true, s')
    | String "+" s' => (false, s')
    | _ => (false, s)
    end in
  let '(m, n1, s2) := read_digits s1 0%Z 0 in
  match s2 with
  | EmptyString => if decide (n1 = 0) then Raise ValueError else Ok (decimal_value negative m 0)
  | String "." s3 =>
      let '(m', n2, s4) := read_digits s3 m 0 in
      match s4 with
      | EmptyString =>
          if decide (n1 + n2 = 0) then Raise ValueError else Ok (decimal_value negative m' n2)
      | _ => Raise ValueError
      end
  | _ => Raise ValueError
  end.

(** ** [cluster_plot] *)

(** The calls of [matplotlib.pyplot] are kept as events, in the order in
    which the program makes them; the library is taken not to fail. *)
Inductive plot_call : Type :=
  | Scatter (x y : list float) (c : string)
  | Title (s : string)
  | Xlabel (s : string)
  | Ylabel (s : string)
  | Grid (b : bool)
  | Show.

(** What a run does, step by step: a line printed, a call of the plotting
    library, a question put to the user by [input]. *)
Inductive event : Type :=
  | Printed (l : line)
  | Plotted (c : plot_call)
  | Asked (prompt : string).

Definition Run (A : Type) : Type := list event * result A.

Definition run_ret {A : Type} (a : A) : Run A := ([], Ok a).

Definition run_bind {A B : Type} (m : Run A) (f : A → Run B) : Run B :=
  match m with
  | (events, Ok a) => let '(events', r) := f a in (events ++ events', r)
  | (events, Raise e) => (events, Raise e)
  end.

Definition run_lift {A : Type} (r : result A) : Run A := ([], r).

Definition of_py {A : Type} (m : Py A) : Run A := (Printed <$> m.1, m.2).

Definition plot (c : plot_call) : Run unit := ([Plotted c], Ok ()).

Definition ask (prompt : string) : Run unit := ([Asked prompt], Ok ()).

Notation "x ←← m ; k" := (run_bind m (λ x, k))
  (at level 100, m at next level, k at level 200, right associativity).
Notation "m ;;;; k" := (run_bind m (λ _, k))
  (at level 100, k at level 200, right associativity).

(** [l[i]] on a list, as [index] above. *)
Abbreviation subscript := index.

(** The loop of [cluster_plot] over [enumerate(centroids)], from position
    [index] on: the colour is looked up first, then the five calls are
    made. *)
Fixpoint plot_clusters (index : nat) (centroids : list (list Point)) (cmaps : list string)
  : Run unit :=
  match centroids with
  | [] => run_ret ()
  | cluster :: centroids' =>
      let '(x, y) :=
        foldl (λ '(x, y) point, (x ++ [point.1], y ++ [point.2])) ([], []) cluster in
      colour ←← run_lift (subscript cmaps index);
      plot (Scatter x y colour) ;;;;
      plot (Title "Life Expectancy vs Birthrate") ;;;;
      plot (Xlabel "Birthrate") ;;;;
      plot (Ylabel "Life Expectancy") ;;;;
      plot (Grid true) ;;;;
      plot_clusters (S index) centroids' cmaps
  end.

Definition cluster_plot (centroids : list (list Point)) (cmaps : list string) : Run unit :=
  plot_clusters 0 centroids cmaps ;;;;
  plot Show.

(** ** [kmeans_algorithm] *)

Definition palette : list string :=
  ["Blue"; "Green"; "Purple"; "Pink"; "Red"; "Orange"; "Brown"; "Black"; "Yellow"; "Grey"].

(** The loop that prints the information about each cluster, from
    position [index] on. *)
Fixpoint report_clusters (index : nat) (centroids : list (list Point)) (cmaps : list string)
    (data : dict) : Run unit :=
  match centroids with
  | [] => run_ret ()
  | cluster :: centroids' =>
      colour ←← run_lift (subscript cmaps index);
      of_py (print [Txt "Country list for cluster "; Int (index + 1);
                    Txt " (colour: "; Txt colour; Txt ") :"]) ;;;;
      of_py (get_country cluster data) ;;;;
      of_py (mean_data cluster) ;;;;
      report_clusters (S index) centroids' cmaps data
  end.

(** [kmeans_algorithm], with the two draws of [random.sample]: the one
    that shuffles the colours, then the one that picks the seeds. *)
Definition kmeans_algorithm (datapoints : list Point) (number_of_clusters : Z) (data : dict)
    (colour_draw draw : list nat) : Run unit :=
  let cmaps := palette in
  cmaps ←← run_lift (random_sample cmaps (Z.of_nat (length cmaps)) colour_draw);
  centroids ←← run_lift (init_centroids datapoints number_of_clusters draw);
  cluster_plot centroids cmaps ;;;;
  report_clusters 0 centroids cmaps data.

(** ** [main] *)

Definition file_prompt : string :=
  "Please enter the name of the file containing the dataset you wish to use:"
  +:+ newline +:+ "data1953.csv" +:+ newline +:+ "data2008.csv" +:+ newline
  +:+ "dataBoth.csv:" +:+ newline +:+ " ".

Definition number_prompt : string :=
  newline +:+ "Please enter the number of clusters you wish to create: ".

(** [main], given the two answers of the user, over the conversions
    [float()] and [int()] of a text to a number. *)
Definition main (py_float : string → result float) (py_int : string → result Z)
    (fs : filesystem) (file_answer number_answer : string)
    (colour_draw draw : list nat) : Run unit :=
  ask file_prompt ;;;;
  read ←← of_py (read_csv py_float fs file_answer);
  ask number_prompt ;;;;
  number_cluster ←← run_lift (py_int number_answer);
  let datapoints := read.*2 in
  kmeans_algorithm datapoints number_cluster read colour_draw draw.

(** Plain decimal integers, [[sign] digits]: the form of the number of
    clusters that a user types.  (Python's [int] accepts more: surrounding
    white space, underscores between digits.) *)
Definition int_of_decimal (s : string) : result Z :=
  let '(negative, s1) :=
    match s with
    | String "-" s' => (true, s')
    | String "+" s' => (false, s')
    | _ => (false, s)
    end in
  let '(m, n, rest) := read_digits s1 0%Z 0 in
  match rest with
  | EmptyString =>
      if decide (n = 0) then Raise ValueError else Ok (if negative then (- m)%Z else m)
  | _ => Raise ValueError
  end.

(** ** Auxiliary definitions for the proofs *)

(** The position of a float that is not NaN in the order of [<=]:
    the class of the number (infinities, negative, zero, positive), then
    exponent and mantissa, both negated for negative numbers. *)
Definition key (x : float) : Z * Z * Z :=
  match x with
  | S754_nan => (0, 0, 0)
  | S754_infinity true => (-2, 0, 0)
  | S754_infinity false => (2, 0, 0)
  | S754_zero _ => (0, 0, 0)
  | S754_finite false m e => (1, e, Zpos m)
  | S754_finite true m e => (-1, - e, Zneg m)
  end%Z.

Definition key_le (a b : Z * Z * Z) : Prop :=
  (a.1.1 < b.1.1 ∨ (a.1.1 = b.1.1 ∧ (a.1.2 < b.1.2 ∨ (a.1.2 = b.1.2 ∧ a.2 ≤ b.2))))%Z.

Definition not_nan (d : float) : Prop := F64.is_nan d = false.

(** All the distances from the centroids to the point are computed, and
    none of them is NaN. *)
Definition measurable (centroids : list Point) (datapoint : Point) : bool :=
  match distances_to centroids datapoint with
  | Ok distances => forallb (λ d, negb (F64.is_nan d)) distances
  | Raise _ => false
  end.

(** The distance from [p] to [q], when it is computed, is not zero. *)
Definition nonzero_distance (p q : Point) : bool :=
  match euclidean_distance p.1 q.1 p.2 q.2 with
  | Ok d => negb (F64.eqb d F64.zero)
  | Raise _ => true
  end.

(** The points of the list that the search sends to seed [j]. *)
Definition assigned_to (samples : list Point) (j : nat) (datapoints : list Point)
  : list Point :=
  filter (λ p, closest_centroid samples p = Ok j) datapoints.
Arguments assigned_to : simpl never.

(** The body of the loop of [init_centroids]. *)
Definition assign (samples : list Point) (clusters : list (list Point)) (point : Point)
  : result (list (list Point)) :=
  i ← closest_centroid samples point; append_at clusters i point.

(** The two lines of the summary. *)
Definition birthrate_line (v : float) : line :=
  [Txt "The mean birthrate for the cluster is "; Flt v].
Definition life_expectancy_line (v : float) : line :=
  [Txt "The mean life expectancy for the cluster is "; Flt v].

(** The countries of the mapping whose point equals a point of the
    cluster, in the order of the mapping. *)
Definition matching_countries (cluster : list Point) (data : dict) : list string :=
  (filter (λ item, point_in item.2 cluster = true) data).*1.

(** Two points are equal as values: both coordinates compare equal as
    floats. *)
Definition same_coordinates (p q : Point) : Prop :=
  F64.eqb p.1 q.1 = true ∧ F64.eqb p.2 q.2 = true.

Global Instance same_coordinates_dec p q : Decision (same_coordinates p q).
Proof. unfold same_coordinates. apply _. Defined.

(** None of the two coordinates of the point is NaN. *)
Definition no_nan_coordinate (p : Point) : Prop :=
  F64.is_nan p.1 = false ∧ F64.is_nan p.2 = false.

Global Instance no_nan_coordinate_dec p : Decision (no_nan_coordinate p).
Proof. unfold no_nan_coordinate. apply _. Defined.


(** The values of a mapping of objects. *)
Definition values_of (data : Objects.dict) : dict :=
  prod_map id Objects.value <$> data.








(** A row with a name and two fields that [float] converts. *)
Definition well_formed_row (py_float : string → result float) (row : list string) : bool :=
  match row with
  | _ :: field1 :: field2 :: _ =>
      match py_float field1, py_float field2 with
      | Ok _, Ok _ => true
      | _, _ => false
      end
  | _ => false
  end.

Definition read_row (py_float : string → result float) (data_dict : dict) (row : list string)
  : result dict :=
  country ← index row 0;
  field1 ← index row 1;
  birthrate ← py_float field1;
  field2 ← index row 2;
  life_expectancy ← py_float field2;
  Ok (dict_set data_dict country (birthrate, life_expectancy)).

(** The exception of a row: a missing field, or the one of the
    conversion. *)
Definition row_exception (py_float : string → result float) (e : exn) : Prop :=
  e = IndexError ∨ ∃ field, py_float field = Raise e.

(** The five calls that plot one cluster. *)
Definition cluster_calls (cluster : list Point) (colour : string) : list event :=
  [Plotted (Scatter (cluster.*1) (cluster.*2) colour);
   Plotted (Title "Life Expectancy vs Birthrate");
   Plotted (Xlabel "Birthrate");
   Plotted (Ylabel "Life Expectancy");
   Plotted (Grid true)].

(** The six lines printed for the cluster at position [index]. *)
Definition cluster_report (data : dict) (index : nat) (cluster : list Point) (colour : string)
  : list line :=
  [[Txt "Country list for cluster "; Int (index + 1);
    Txt " (colour: "; Txt colour; Txt ") :"]]
  ++ (get_country cluster data).1 ++ (mean_data cluster).1.

(** The lines printed in a list of events. *)
Definition printed (events : list event) : list line :=
  omap (λ ev, match ev with Printed l => Some l | _ => None end) events.

(** The names of a list, each at its first occurrence; [seen] holds the
    names met so far. *)
Fixpoint first_occurrences (seen names : list string) : list string :=
  match names with
  | [] => []
  | name :: names' =>
      if decide (name ∈ seen) then first_occurrences seen names'
      else name :: first_occurrences (seen ++ [name]) names'
  end.

(** The first field of every row that has one. *)
Definition row_names (rows : list (list string)) : list string :=
  omap (λ row, row !! 0) rows.

(** ** Data of the examples *)

(** Four points on a line, at 0, 6, 1 and 3, and a point at [2^-600]. *)
Definition origin : Point := (F64.of_Z 0, F64.of_Z 0).
Definition east6 : Point := (F64.of_Z 6, F64.of_Z 0).
Definition east1 : Point := (F64.of_Z 1, F64.of_Z 0).
Definition east3 : Point := (F64.of_Z 3, F64.of_Z 0).

Definition tiny : Point := (F64.of_Z_exp 1 (-600), F64.of_Z 0).

(** Three files: one with a field that is no number, one with a row
    that lacks its fields, one without a fault. *)
Definition sample_files : filesystem := λ file,
  if decide (file = "data.csv") then
    Some [["Countries"; "BirthRate"; "LifeExpectancy"];
          ["Albania"; "16.3"; "76.8"];
          ["Chad"; "n/a"; "50.6"];
          ["Norway"; "12.7"; "80.4"]]
  else if decide (file = "short.csv") then
    Some [["Countries"; "BirthRate"; "LifeExpectancy"];
          ["Albania"; "16.3"; "76.8"];
          ["Chad"]]
  else if decide (file = "good.csv") then
    Some [["Countries"; "BirthRate"; "LifeExpectancy"];
          ["Albania"; "16.3"; "76.8"];
          ["Norway"; "12.7"; "80.4"]]
  else None.

(** A point equal to the origin but for the sign of a zero, a point with a
    NaN coordinate, a point at [2^600]. *)
Definition minus_origin : Point := (S754_zero true, F64.of_Z 0).

Definition nowhere : Point := (F64.nan, F64.of_Z 0).
Definition far_east : Point := (F64.of_Z_exp 1 600, F64.of_Z 0).

(** A dictionary with two countries at the same point. *)
Definition three_countries : dict :=
  [("Norway", east1); ("Chad", east6); ("Sweden", east1)].





(** A file in which a country occurs twice, and what [read_csv] makes of
    it. *)
Definition repeated_files : filesystem := λ file,
  if decide (file = "both.csv") then
    Some [["Countries"; "BirthRate"; "LifeExpectancy"];
          ["Albania"; "39"; "54.5"];
          ["Norway"; "18.8"; "72.7"];
          ["Albania"; "16.3"; "76.8"]]
  else None.

Definition repeated_rows : list (list string) :=
  [["Albania"; "39"; "54.5"]; ["Norway"; "18.8"; "72.7"]; ["Albania"; "16.3"; "76.8"]].

Definition repeated_data : dict :=
  Eval vm_compute in
    match read_csv float_of_decimal repeated_files "both.csv" with
    | (_, Ok data) => data
    | _ => []
    end.

(** * Properties *)

(** ** The order of binary64 numbers *)

Section FloatOrder.

Implicit Types a b c : float.

Lemma leb_nan_l b : F64.leb F64.nan b = false.
Proof. reflexivity. Qed.

Lemma leb_nan_r a : F64.leb a F64.nan = false.
Proof. by destruct a. Qed.

Lemma eqb_nan_r a : F64.eqb a F64.nan = false.
Proof. by destruct a. Qed.

Lemma leb_not_nan a b : F64.leb a b = true → F64.is_nan a = false ∧ F64.is_nan b = false.
Proof. destruct a, b; by cbn. Qed.

Lemma eqb_not_nan a b : F64.eqb a b = true → F64.is_nan a = false ∧ F64.is_nan b = false.
Proof. destruct a, b; by cbn. Qed.

Lemma leb_key a b :
  F64.is_nan a = false → F64.is_nan b = false →
  F64.leb a b = true ↔ key_le (key a) (key b).
Proof.
  unfold F64.leb, SFleb, key_le.
  destruct a as [sa|sa| |sa ma ea], b as [sb|sb| |sb mb eb]; try discriminate;
    intros _ _; try destruct sa; try destruct sb; cbn;
    try (split; [intros _; lia | done]);
    try (split; [discriminate | lia]).
  all: change (Pos.compare_cont Eq ?x ?y) with (Pos.compare x y).
  all: destruct (Z.compare_spec ea eb); try destruct (Pos.compare_spec ma mb); cbn;
    split; intros; try discriminate; try done; lia.
Qed.

Lemma eqb_key a b :
  F64.is_nan a = false → F64.is_nan b = false →
  F64.eqb a b = true ↔ key a = key b.
Proof.
  unfold F64.eqb, SFeqb.
  destruct a as [sa|sa| |sa ma ea], b as [sb|sb| |sb mb eb]; try discriminate;
    intros _ _; try destruct sa; try destruct sb; cbn;
    try (split; [done | done]); try (split; [discriminate | discriminate]).
  all: change (Pos.compare_cont Eq ?x ?y) with (Pos.compare x y).
  all: destruct (Z.compare_spec ea eb); try destruct (Pos.compare_spec ma mb); cbn;
    split; intros; try discriminate; try done; try (simplify_eq; lia); try congruence.
Qed.

Ltac by_key :=
  repeat match goal with
    | H : F64.leb ?x ?y = true |- _ =>
        let Hx := fresh in let Hy := fresh in
        destruct (leb_not_nan _ _ H) as [Hx Hy];
        apply (leb_key _ _ Hx Hy) in H
    | H : F64.eqb ?x ?y = true |- _ =>
        let Hx := fresh in let Hy := fresh in
        destruct (eqb_not_nan _ _ H) as [Hx Hy];
        apply (eqb_key _ _ Hx Hy) in H
    end.

Lemma eqb_refl a : F64.is_nan a = false → F64.eqb a a = true.
Proof. intros Ha. by apply eqb_key. Qed.

Lemma eqb_sym a b : F64.eqb a b = true → F64.eqb b a = true.
Proof. intros H. by_key. by apply eqb_key. Qed.

Lemma eqb_trans a b c : F64.eqb a b = true → F64.eqb b c = true → F64.eqb a c = true.
Proof. intros H1 H2. by_key. apply eqb_key; congruence. Qed.

Lemma eqb_leb a b : F64.eqb a b = true → F64.leb a b = true.
Proof.
  intros H. by_key. apply leb_key; [done..|].
  rewrite H. unfold key_le. lia.
Qed.

Lemma leb_refl a : F64.is_nan a = false → F64.leb a a = true.
Proof. intros Ha. by apply eqb_leb, eqb_refl. Qed.

Lemma leb_trans a b c : F64.leb a b = true → F64.leb b c = true → F64.leb a c = true.
Proof.
  intros H1 H2. by_key. apply leb_key; [done..|].
  unfold key_le in *. lia.
Qed.

Lemma leb_total a b :
  F64.is_nan a = false → F64.is_nan b = false →
  F64.leb a b = false → F64.leb b a = true.
Proof.
  intros Ha Hb H. apply leb_key; [done..|].
  destruct (decide (key_le (key a) (key b))) as [Hk|Hk].
  - apply leb_key in Hk; congruence.
  - unfold key_le in *. lia.
Qed.

Lemma leb_antisym a b : F64.leb a b = true → F64.leb b a = true → F64.eqb a b = true.
Proof.
  intros H1 H2. by_key. apply eqb_key; [done..|].
  unfold key_le in *.
  destruct (key a) as [[??]?], (key b) as [[??]?]; cbn in *.
  repeat f_equal; lia.
Qed.

(** Comparisons do not tell apart numbers that are [==]. *)
Lemma eqb_compat_l a b c : F64.eqb a b = true → F64.eqb a c = F64.eqb b c.
Proof.
  intros H. destruct (F64.eqb b c) eqn:Hbc.
  - by eapply eqb_trans.
  - destruct (F64.eqb a c) eqn:Hac; [|done].
    rewrite <- Hbc. symmetry. eapply eqb_trans; [by apply eqb_sym|done].
Qed.

End FloatOrder.

(** ** The loops *)

Section Loops.

Context {A B : Type}.

Lemma collect_Forall2 (f : A → result B) l ys :
  collect f l = Ok ys → Forall2 (λ x y, f x = Ok y) l ys.
Proof.
  revert ys. induction l as [|x l IH]; intros ys; cbn.
  - intros [= <-]. constructor.
  - destruct (f x) as [y|] eqn:Hx; [|done]. cbn.
    destruct (collect f l) as [ys'|]; [|done]. cbn.
    intros [= <-]. constructor; auto.
Qed.

Lemma Forall2_collect (f : A → result B) l ys :
  Forall2 (λ x y, f x = Ok y) l ys → collect f l = Ok ys.
Proof.
  induction 1 as [|x y l ys Hx _ IH]; cbn; [done|].
  by rewrite Hx, IH.
Qed.

Lemma collect_Raise (f : A → result B) l e :
  collect f l = Raise e → ∃ x, x ∈ l ∧ f x = Raise e.
Proof.
  induction l as [|x l IH]; cbn; [done|].
  destruct (f x) as [y|e'] eqn:Hx; cbn.
  - destruct (collect f l) as [ys'|e'']; [done|]. cbn.
    intros [= ->]. destruct IH as (x' & ? & ?); [done|].
    exists x'. split; [by right|done].
  - intros [= ->]. exists x. split; [by left|done].
Qed.

End Loops.

(** ** [closest_centroid] *)

Section ClosestCentroid.

Implicit Types (d m : float) (l distances : list float) (centroids : list Point).

Lemma np_minimum_cases a b :
  not_nan a → not_nan b →
  (np_minimum a b = a ∧ F64.leb a b = true) ∨ (np_minimum a b = b ∧ F64.leb b a = true).
Proof.
  intros Ha Hb. unfold np_minimum. rewrite Ha, orb_false_r.
  destruct (F64.leb a b) eqn:Hab; [by left|right].
  split; [done|]. by apply leb_total.
Qed.

Lemma foldl_minimum l acc :
  not_nan acc → Forall not_nan l →
  not_nan (foldl np_minimum acc l) ∧
  F64.leb (foldl np_minimum acc l) acc = true ∧
  Forall (λ d, F64.leb (foldl np_minimum acc l) d = true) l ∧
  foldl np_minimum acc l ∈ acc :: l.
Proof.
  revert acc. induction l as [|b l IH]; intros acc Hacc Hl; cbn.
  - split_and!; [done|by apply leb_refl|constructor|by left].
  - inversion_clear Hl as [|?? Hb Hl'].
    destruct (np_minimum_cases acc b Hacc Hb) as [[-> Hle]|[-> Hle]].
    + destruct (IH acc Hacc Hl') as (Hm & Hmacc & Hall & Hin).
      split_and!; [done|done| |].
      * constructor; [by eapply leb_trans|done].
      * apply elem_of_cons in Hin as [->|Hin]; [by left|by do 2 right].
    + destruct (IH b Hb Hl') as (Hm & Hmb & Hall & Hin).
      split_and!; [done|by eapply leb_trans| |].
      * by constructor.
      * by right.
Qed.

Lemma np_amin_spec l :
  l ≠ [] → Forall not_nan l →
  ∃ m, np_amin l = Ok m ∧ m ∈ l ∧ not_nan m ∧ Forall (λ d, F64.leb m d = true) l.
Proof.
  destruct l as [|a l]; [done|]. intros _ Hl.
  inversion_clear Hl as [|?? Ha Hl'].
  destruct (foldl_minimum l a Ha Hl') as (Hm & Hma & Hall & Hin).
  exists (foldl np_minimum a l). split_and!; [done|done|done|by constructor].
Qed.

Lemma np_amin_Raise l e : np_amin l = Raise e → l = [] ∧ e = ValueError.
Proof. destruct l; cbn; [by intros [= <-]|done]. Qed.

(** The head of [np.where(...)[0]] is the first position that holds a
    value equal to [m]. *)
Lemma where_from_head k l m i rest :
  where_from k l m = i :: rest →
  ∃ j x, i = k + j ∧ l !! j = Some x ∧ F64.eqb x m = true ∧
         ∀ j' y, j' < j → l !! j' = Some y → F64.eqb y m = false.
Proof.
  revert k. induction l as [|a l IH]; intros k; cbn; [done|].
  destruct (F64.eqb a m) eqn:Ha.
  - intros [= <- _]. exists 0, a. split_and!; [lia|done|done|lia].
  - intros (j & x & -> & Hj & Hx & Hmin)%IH.
    exists (S j), x. split_and!; [lia|done|done|].
    intros [|j'] y Hlt; cbn; [by intros [= <-]|].
    apply Hmin. lia.
Qed.

Lemma where_from_nil k l m :
  where_from k l m = [] → Forall (λ x, F64.eqb x m = false) l.
Proof.
  revert k. induction l as [|a l IH]; intros k; cbn; [constructor|].
  destruct (F64.eqb a m) eqn:Ha; [done|]. intros ?%IH. by constructor.
Qed.

Lemma euclidean_distance_Raise x1 x2 y1 y2 e :
  euclidean_distance x1 x2 y1 y2 = Raise e → e = OverflowError.
Proof.
  unfold euclidean_distance, py_pow2.
  destruct (F64.sub x2 x1), (F64.sub y2 y1); cbn;
    repeat match goal with |- context [F64.is_inf ?r] => destruct (F64.is_inf r) end;
    cbn; congruence.
Qed.

Lemma distances_to_length centroids p distances :
  distances_to centroids p = Ok distances → length distances = length centroids.
Proof. intros H%collect_Forall2. symmetry. by eapply Forall2_length. Qed.

Lemma distances_to_Raise centroids p e :
  distances_to centroids p = Raise e → e = OverflowError.
Proof. intros (c & _ & H)%collect_Raise. by eapply euclidean_distance_Raise. Qed.

(** What a returned index says about the list of distances. *)
Lemma closest_centroid_Ok centroids p i :
  closest_centroid centroids p = Ok i →
  ∃ distances m x,
    distances_to centroids p = Ok distances ∧ np_amin distances = Ok m ∧
    distances !! i = Some x ∧ F64.eqb x m = true ∧
    ∀ j y, j < i → distances !! j = Some y → F64.eqb y m = false.
Proof.
  unfold closest_centroid.
  destruct (distances_to centroids p) as [distances|] eqn:Hd; [|done]. cbn.
  destruct (np_amin distances) as [m|] eqn:Hm; [|done]. cbn.
  unfold np_where_eq.
  destruct (where_from 0 distances m) as [|i' rest] eqn:Hw; [done|].
  intros [= ->].
  apply where_from_head in Hw as (j & x & -> & Hj & Hx & Hmin).
  exists distances, m, x. by split_and!.
Qed.

Lemma closest_centroid_lt centroids p i :
  closest_centroid centroids p = Ok i → i < length centroids.
Proof.
  intros (distances & m & x & Hd & _ & Hi & _)%closest_centroid_Ok.
  apply lookup_lt_Some in Hi. by rewrite (distances_to_length _ _ _ Hd) in Hi.
Qed.

Lemma closest_centroid_nil p : closest_centroid [] p = Raise ValueError.
Proof. reflexivity. Qed.

Lemma closest_centroid_ValueError centroids p :
  closest_centroid centroids p = Raise ValueError → centroids = [].
Proof.
  unfold closest_centroid.
  destruct (distances_to centroids p) as [distances|e] eqn:Hd; cbn.
  - destruct (np_amin distances) as [m|e] eqn:Hm; cbn.
    + destruct (np_where_eq distances m); done.
    + apply np_amin_Raise in Hm as [-> _]. intros _.
      apply distances_to_length in Hd. by destruct centroids.
  - apply distances_to_Raise in Hd as ->. done.
Qed.

(** With the minimum [m] of distances that are not NaN, the search
    returns the first position holding a value equal to [m]. *)
Lemma closest_centroid_first centroids p distances :
  centroids ≠ [] →
  distances_to centroids p = Ok distances →
  Forall not_nan distances →
  ∃ i m x,
    closest_centroid centroids p = Ok i ∧ i < length centroids ∧
    distances !! i = Some x ∧ F64.eqb x m = true ∧
    Forall (λ d, F64.leb m d = true) distances ∧
    ∀ j y, j < i → distances !! j = Some y → F64.eqb y m = false.
Proof.
  intros Hne Hd Hnan.
  assert (distances ≠ []) as Hne'.
  { apply distances_to_length in Hd. destruct distances, centroids; done. }
  destruct (np_amin_spec distances Hne' Hnan) as (m & Hm & Hin & Hmn & Hall).
  unfold closest_centroid. rewrite Hd. cbn. rewrite Hm. cbn.
  unfold np_where_eq.
  destruct (where_from 0 distances m) as [|i rest] eqn:Hw.
  - apply where_from_nil in Hw. rewrite Forall_forall in Hw.
    specialize (Hw m Hin). by rewrite eqb_refl in Hw.
  - apply where_from_head in Hw as (j & x & -> & Hj & Hx & Hmin).
    exists j, m, x. split_and!; try done.
    apply lookup_lt_Some in Hj. by rewrite (distances_to_length _ _ _ Hd) in Hj.
Qed.

Lemma measurable_spec centroids p :
  measurable centroids p = true ↔
  ∃ distances, distances_to centroids p = Ok distances ∧ Forall not_nan distances.
Proof.
  unfold measurable. destruct (distances_to centroids p) as [distances|]; split.
  - intros H. exists distances. split; [done|].
    apply Forall_forall. intros d Hd.
    rewrite forallb_forall in H. specialize (H d).
    rewrite <- list_elem_of_In in H. apply H in Hd. unfold not_nan. by destruct (F64.is_nan d).
  - intros (? & [= <-] & H). apply forallb_forall. intros d Hd.
    rewrite <- list_elem_of_In in Hd. rewrite Forall_forall in H.
    by rewrite (H d Hd : F64.is_nan d = false).
  - done.
  - by intros (? & ? & _).
Qed.

End ClosestCentroid.

(** ** [init_centroids] *)

Section InitCentroids.

Implicit Types (datapoints samples : list Point) (clusters : list (list Point)).

Lemma random_sample_Ok {A} (population : list A) k draw chosen :
  random_sample population k draw = Ok chosen →
  (0 ≤ k ≤ Z.of_nat (length population))%Z ∧
  chosen = omap (λ i, population !! i) draw.
Proof. unfold random_sample. case_decide; [|done]. by intros [= <-]. Qed.

Lemma random_sample_Raise {A} (population : list A) k draw e :
  random_sample population k draw = Raise e →
  ¬ (0 ≤ k ≤ Z.of_nat (length population))%Z ∧ e = ValueError.
Proof. unfold random_sample. case_decide; [done|]. by intros [= <-]. Qed.

Lemma omap_lookup_valid {A} (population : list A) draw :
  Forall (λ i, i < length population) draw →
  Forall2 (λ i s, population !! i = Some s) draw (omap (λ i, population !! i) draw).
Proof.
  induction 1 as [|i draw Hi _ IH]; cbn; [constructor|].
  destruct (lookup_lt_is_Some_2 population i Hi) as [s Hs].
  rewrite Hs. by constructor.
Qed.

Lemma random_sample_valid {A} (population : list A) k draw chosen :
  valid_draw (length population) k draw →
  random_sample population k draw = Ok chosen →
  Forall2 (λ i s, population !! i = Some s) draw chosen ∧
  Z.of_nat (length chosen) = k.
Proof.
  intros (Hlen & _ & Hlt) [_ ->]%random_sample_Ok.
  pose proof (omap_lookup_valid population draw Hlt) as H.
  split; [done|]. apply Forall2_length in H. lia.
Qed.

Lemma init_centroids_Ok datapoints k draw clusters :
  init_centroids datapoints k draw = Ok clusters →
  ∃ samples, random_sample datapoints k draw = Ok samples ∧
    for_each (assign samples) datapoints ((λ _, []) <$> samples) = Ok clusters.
Proof.
  unfold init_centroids.
  destruct (random_sample datapoints k draw) as [samples|]; [|done].
  intros H. by exists samples.
Qed.

Lemma append_at_Ok clusters i p clusters' :
  append_at clusters i p = Ok clusters' →
  ∃ c, clusters !! i = Some c ∧ clusters' = <[i := c ++ [p]]> clusters.
Proof.
  unfold append_at. destruct (clusters !! i) as [c|] eqn:Hc; [|done].
  intros [= <-]. by exists c.
Qed.

Lemma assign_Ok samples clusters p clusters' :
  assign samples clusters p = Ok clusters' →
  ∃ i c, closest_centroid samples p = Ok i ∧ clusters !! i = Some c ∧
         clusters' = <[i := c ++ [p]]> clusters.
Proof.
  unfold assign. destruct (closest_centroid samples p) as [i|] eqn:Hi; [|done].
  cbn. intros (c & ? & ?)%append_at_Ok. by exists i, c.
Qed.

(** The loop appends to cluster [j] the points that the search sends
    to [j], in the order of the dataset, and to no other cluster. *)
Lemma for_each_assign samples datapoints clusters0 clusters :
  for_each (assign samples) datapoints clusters0 = Ok clusters →
  length clusters = length clusters0 ∧
  (∀ j c0, clusters0 !! j = Some c0 →
           clusters !! j = Some (c0 ++ assigned_to samples j datapoints)) ∧
  Forall (λ p, ∃ i, closest_centroid samples p = Ok i) datapoints.
Proof.
  revert clusters0. induction datapoints as [|p l IH]; intros clusters0; cbn.
  - intros [= <-]. split_and!; [done| |constructor].
    intros j c0 Hj. by rewrite app_nil_r.
  - destruct (assign samples clusters0 p) as [clusters1|] eqn:Hp; [|done]. cbn.
    apply assign_Ok in Hp as (i & c & Hi & Hc & ->).
    intros (Hlen & Hall & Hdef)%IH.
    rewrite length_insert in Hlen. split_and!; [done| |].
    + intros j c0 Hj. unfold assigned_to.
      destruct (decide (j = i)) as [->|Hne].
      * rewrite filter_cons_True by done.
        rewrite (Hall i (c ++ [p])).
        -- f_equal. simplify_eq. by rewrite <- app_assoc.
        -- apply list_lookup_insert_eq. by eapply lookup_lt_Some.
      * rewrite filter_cons_False by congruence.
        apply Hall. by rewrite list_lookup_insert_ne.
    + constructor; [by exists i|done].
Qed.

Lemma for_each_assign_perm samples datapoints clusters0 clusters :
  for_each (assign samples) datapoints clusters0 = Ok clusters →
  concat clusters ≡ₚ concat clusters0 ++ datapoints.
Proof.
  revert clusters0. induction datapoints as [|p l IH]; intros clusters0; cbn.
  - intros [= <-]. by rewrite app_nil_r.
  - destruct (assign samples clusters0 p) as [clusters1|] eqn:Hp; [|done]. cbn.
    apply assign_Ok in Hp as (i & c & Hi & Hc & ->).
    intros ->%IH.
    rewrite insert_take_drop by (by eapply lookup_lt_Some).
    rewrite <- (take_drop_middle clusters0 i c Hc) at 3.
    rewrite !concat_app, !concat_cons.
    rewrite (Permutation_app_comm c [p]). cbn.
    by rewrite <- !Permutation_middle.
Qed.

Lemma for_each_assign_total samples datapoints clusters0 :
  length clusters0 = length samples →
  Forall (λ p, ∃ i, closest_centroid samples p = Ok i) datapoints →
  ∃ clusters, for_each (assign samples) datapoints clusters0 = Ok clusters.
Proof.
  intros Hlen Hall. revert clusters0 Hlen.
  induction Hall as [|p l [i Hi] _ IH]; intros clusters0 Hlen; cbn [for_each].
  - by eexists.
  - assert (∃ clusters1, assign samples clusters0 p = Ok clusters1 ∧
                         length clusters1 = length samples) as (clusters1 & -> & Hlen1).
    { unfold assign. rewrite Hi. cbn. unfold append_at.
      pose proof (closest_centroid_lt _ _ _ Hi) as Hlt. rewrite <- Hlen in Hlt.
      destruct (lookup_lt_is_Some_2 clusters0 i Hlt) as [c ->].
      eexists. split; [done|]. by rewrite length_insert. }
    cbn. by apply IH.
Qed.

(** The clusters of a run, one by one. *)
Lemma init_centroids_clusters datapoints k draw samples clusters :
  random_sample datapoints k draw = Ok samples →
  init_centroids datapoints k draw = Ok clusters →
  length clusters = length samples ∧
  ∀ j, j < length samples →
       clusters !! j = Some (assigned_to samples j datapoints).
Proof.
  intros Hs (samples' & Hs' & Hloop)%init_centroids_Ok.
  rewrite Hs in Hs'. injection Hs' as <-.
  apply for_each_assign in Hloop as (Hlen & Hall & _).
  rewrite length_fmap in Hlen. split; [done|].
  intros j Hj. apply (Hall j []).
  rewrite list_lookup_fmap.
  by destruct (lookup_lt_is_Some_2 samples j Hj) as [s ->].
Qed.

End InitCentroids.

Section Measurable.

Implicit Types (centroids : list Point) (p : Point).

Lemma measurable_elem centroids p :
  measurable centroids p = true ↔
  ∀ c, c ∈ centroids → ∃ d, euclidean_distance c.1 p.1 c.2 p.2 = Ok d ∧ not_nan d.
Proof.
  rewrite measurable_spec. split.
  - intros (distances & Hd%collect_Forall2 & Hnan) c Hc.
    apply list_elem_of_lookup in Hc as [i Hi].
    destruct (Forall2_lookup_l _ _ _ _ _ Hd Hi) as (d & Hdi & Hcd).
    exists d. split; [done|].
    rewrite Forall_forall in Hnan. apply Hnan. by eapply list_elem_of_lookup_2.
  - induction centroids as [|c centroids IH]; intros H.
    + exists []. by split.
    + destruct (H c) as (d & Hd & Hn); [by left|].
      destruct IH as (distances & Hds & Hns).
      { intros c' Hc'. apply H. by right. }
      exists (d :: distances). split; [|by constructor].
      unfold distances_to in *. cbn. by rewrite Hd, Hds.
Qed.

Lemma measurable_subseteq centroids centroids' p :
  centroids' ⊆ centroids → measurable centroids p = true → measurable centroids' p = true.
Proof. rewrite !measurable_elem. intros Hsub H c Hc. by apply H, Hsub. Qed.

Lemma closest_centroid_measurable centroids p :
  centroids ≠ [] → measurable centroids p = true →
  ∃ i, closest_centroid centroids p = Ok i ∧ i < length centroids.
Proof.
  intros Hne (distances & Hd & Hnan)%measurable_spec.
  destruct (closest_centroid_first centroids p distances Hne Hd Hnan)
    as (i & _ & _ & Hi & Hlt & _).
  by exists i.
Qed.

Lemma random_sample_subseteq {A} (population : list A) k draw chosen :
  random_sample population k draw = Ok chosen → chosen ⊆ population.
Proof.
  intros [_ ->]%random_sample_Ok s (i & _ & Hi)%list_elem_of_omap.
  by eapply list_elem_of_lookup_2.
Qed.

(** A run succeeds when all the distances within the dataset are
    computed and none is NaN. *)
Lemma init_centroids_total datapoints number_clusters draw :
  (1 ≤ number_clusters ≤ Z.of_nat (length datapoints))%Z →
  valid_draw (length datapoints) number_clusters draw →
  Forall (λ p, measurable datapoints p = true) datapoints →
  ∃ clusters, init_centroids datapoints number_clusters draw = Ok clusters.
Proof.
  intros Hk Hdraw Hall.
  destruct (random_sample datapoints number_clusters draw) as [samples|e] eqn:Hs;
    [|apply random_sample_Raise in Hs; lia].
  destruct (random_sample_valid _ _ _ _ Hdraw Hs) as [_ Hlen].
  unfold init_centroids. rewrite Hs. cbn.
  apply for_each_assign_total; [by rewrite length_fmap|].
  eapply Forall_impl; [exact Hall|]. cbn. intros p Hp.
  destruct (closest_centroid_measurable samples p) as (i & Hi & _).
  - destruct samples; [cbn in Hlen; lia|done].
  - eapply measurable_subseteq; [|done]. by eapply random_sample_subseteq.
  - by exists i.
Qed.

End Measurable.

(** ** The claims about [init_centroids] and [closest_centroid] *)

(** C1.  For a valid number of clusters and any draw of the sampler, the
    clusters that [init_centroids] returns partition the dataset: there
    are as many clusters as requested, their concatenation is a
    permutation of the dataset (nothing lost, nothing duplicated), and
    every point of the dataset lies in exactly one cluster.  The clusters
    are returned whenever every distance between two points of the
    dataset is computed and is not NaN. *)
Theorem init_centroids_partition datapoints number_clusters draw :
  (1 ≤ number_clusters ≤ Z.of_nat (length datapoints))%Z →
  valid_draw (length datapoints) number_clusters draw →
  (Forall (λ p, measurable datapoints p = true) datapoints →
   ∃ clusters, init_centroids datapoints number_clusters draw = Ok clusters) ∧
  (∀ clusters,
     init_centroids datapoints number_clusters draw = Ok clusters →
     Z.of_nat (length clusters) = number_clusters ∧
     concat clusters ≡ₚ datapoints ∧
     ∀ p, p ∈ datapoints →
          ∃ j cluster, clusters !! j = Some cluster ∧ p ∈ cluster ∧
            ∀ j' cluster', clusters !! j' = Some cluster' → p ∈ cluster' → j' = j).
Proof.
  intros Hk Hdraw.
  destruct (random_sample datapoints number_clusters draw) as [samples|e] eqn:Hs;
    [|apply random_sample_Raise in Hs; lia].
  destruct (random_sample_valid _ _ _ _ Hdraw Hs) as [Hpos Hlen].
  split.
  - by apply init_centroids_total.
  - intros clusters Hrun.
    destruct (init_centroids_clusters _ _ _ _ _ Hs Hrun) as [Hlen' Hcl].
    apply init_centroids_Ok in Hrun as (samples' & Hs' & Hloop).
    rewrite Hs in Hs'. injection Hs' as <-.
    split_and!.
    + lia.
    + apply for_each_assign_perm in Hloop. rewrite Hloop.
      replace (concat ((λ _, []) <$> samples)) with (@nil Point); [done|].
      clear. induction samples; [done|]. by cbn.
    + apply for_each_assign in Hloop as (_ & _ & Hdef).
      intros p Hp. rewrite Forall_forall in Hdef.
      destruct (Hdef p Hp) as [i Hi].
      pose proof (closest_centroid_lt _ _ _ Hi) as Hlt.
      exists i, (assigned_to samples i datapoints). split_and!.
      * by apply Hcl.
      * by apply list_elem_of_filter.
      * intros j' cluster' Hj' Hin.
        assert (j' < length samples) as Hlt' by (rewrite <- Hlen'; by eapply lookup_lt_Some).
        rewrite (Hcl j' Hlt') in Hj'. injection Hj' as <-.
        apply list_elem_of_filter in Hin as [Hin _]. congruence.
Qed.

Lemma init_centroids_partition_witness :
  let datapoints := [origin; east6; east1; east3] in
  (Forall (λ p, measurable datapoints p = true) datapoints →
   ∃ clusters, init_centroids datapoints 2 [1; 0] = Ok clusters) ∧
  (∀ clusters,
     init_centroids datapoints 2 [1; 0] = Ok clusters →
     Z.of_nat (length clusters) = 2%Z ∧
     concat clusters ≡ₚ datapoints ∧
     ∀ p, p ∈ datapoints →
          ∃ j cluster, clusters !! j = Some cluster ∧ p ∈ cluster ∧
            ∀ j' cluster', clusters !! j' = Some cluster' → p ∈ cluster' → j' = j).
Proof.
  apply (init_centroids_partition [origin; east6; east1; east3] 2 [1; 0]).
  - cbn. lia.
  - apply (bool_decide_unpack _). vm_compute. exact I.
Defined.

Example init_centroids_run :
  init_centroids [origin; east6; east1; east3] 2 [1; 0]
  = Ok [[east6; east3]; [origin; east1]].
Proof. vm_compute. reflexivity. Qed.

(** C7.  For a valid number of clusters and any draw of the sampler, each
    cluster that [init_centroids] returns is the dataset filtered by "the
    nearest seed is seed [j]": its points come in the order of the dataset
    (it is a sublist of the dataset).  The clusters are returned whenever
    every distance between two points of the dataset is computed and is
    not NaN. *)
Theorem init_centroids_stable_order datapoints number_clusters draw :
  (1 ≤ number_clusters ≤ Z.of_nat (length datapoints))%Z →
  valid_draw (length datapoints) number_clusters draw →
  (Forall (λ p, measurable datapoints p = true) datapoints →
   ∃ clusters, init_centroids datapoints number_clusters draw = Ok clusters) ∧
  (∀ clusters j cluster,
     init_centroids datapoints number_clusters draw = Ok clusters →
     clusters !! j = Some cluster →
     ∃ samples,
       random_sample datapoints number_clusters draw = Ok samples ∧
       cluster = filter (λ p, closest_centroid samples p = Ok j) datapoints ∧
       sublist cluster datapoints).
Proof.
  intros Hk Hdraw. split; [by apply init_centroids_total|].
  intros clusters j cluster Hrun Hj.
  destruct (init_centroids_Ok _ _ _ _ Hrun) as (samples & Hs & _).
  destruct (init_centroids_clusters _ _ _ _ _ Hs Hrun) as [Hlen Hcl].
  exists samples. split; [done|].
  assert (j < length samples) as Hlt by (rewrite <- Hlen; by eapply lookup_lt_Some).
  rewrite (Hcl j Hlt) in Hj. injection Hj as <-.
  split; [done|]. apply sublist_filter.
Qed.

Lemma init_centroids_stable_order_witness :
  let datapoints := [origin; east6; east1; east3] in
  (Forall (λ p, measurable datapoints p = true) datapoints →
   ∃ clusters, init_centroids datapoints 2 [1; 0] = Ok clusters) ∧
  (∀ clusters j cluster,
     init_centroids datapoints 2 [1; 0] = Ok clusters →
     clusters !! j = Some cluster →
     ∃ samples,
       random_sample datapoints 2 [1; 0] = Ok samples ∧
       cluster = filter (λ p, closest_centroid samples p = Ok j) datapoints ∧
       sublist cluster datapoints).
Proof.
  apply (init_centroids_stable_order [origin; east6; east1; east3] 2 [1; 0]).
  - cbn. lia.
  - apply (bool_decide_unpack _). vm_compute. exact I.
Defined.

(** C2.  When the distances from the seeds to a point are computed and
    the least of them is found at position [i] (possibly among others),
    [closest_centroid] returns the lowest position [i0] holding that
    least distance: [i0 <= i], the distance at [i0] equals the one at [i],
    and no position before [i0] holds an equal distance.  In every run of
    [init_centroids] with these seeds the point is put in cluster [i0]. *)
Theorem closest_centroid_lowest_index centroids datapoint distances i di :
  centroids ≠ [] →
  distances_to centroids datapoint = Ok distances →
  distances !! i = Some di →
  (∀ j dj, distances !! j = Some dj → F64.leb di dj = true) →
  ∃ i0 d0,
    closest_centroid centroids datapoint = Ok i0 ∧
    i0 ≤ i ∧
    distances !! i0 = Some d0 ∧ F64.eqb d0 di = true ∧
    (∀ j dj, j < i0 → distances !! j = Some dj → F64.eqb dj di = false) ∧
    ∀ datapoints number_clusters draw clusters,
      random_sample datapoints number_clusters draw = Ok centroids →
      init_centroids datapoints number_clusters draw = Ok clusters →
      datapoint ∈ datapoints →
      ∃ cluster, clusters !! i0 = Some cluster ∧ datapoint ∈ cluster.
Proof.
  intros Hne Hd Hi Hmin.
  assert (Forall not_nan distances) as Hnan.
  { apply Forall_forall. intros d [j Hj]%list_elem_of_lookup.
    by destruct (leb_not_nan _ _ (Hmin j d Hj)). }
  destruct (closest_centroid_first centroids datapoint distances Hne Hd Hnan)
    as (i0 & m & d0 & Hrun & _ & Hi0 & Hd0 & Hall & Hfirst).
  assert (F64.eqb m di = true) as Hm.
  { rewrite Forall_forall in Hall.
    apply leb_antisym; [apply Hall; by eapply list_elem_of_lookup_2|].
    eapply leb_trans; [by apply (Hmin i0 d0)|by apply eqb_leb]. }
  exists i0, d0. split_and!; [done| |done|by eapply eqb_trans| |].
  - destruct (decide (i0 ≤ i)) as [|Hgt]; [done|].
    assert (F64.eqb di m = false) as Hc by (apply (Hfirst i di); [lia|done]).
    apply eqb_sym in Hm. congruence.
  - intros j dj Hlt Hj.
    destruct (F64.eqb dj di) eqn:E; [|done].
    rewrite <- (Hfirst j dj Hlt Hj). symmetry.
    eapply eqb_trans; [done|by apply eqb_sym].
  - intros datapoints k draw clusters Hs Hinit Hin.
    destruct (init_centroids_clusters _ _ _ _ _ Hs Hinit) as [_ Hcl].
    exists (assigned_to centroids i0 datapoints). split.
    + apply Hcl. by eapply closest_centroid_lt.
    + by apply list_elem_of_filter.
Qed.

Lemma closest_centroid_lowest_index_witness :
  ∃ i0 d0,
    closest_centroid [east6; origin] east3 = Ok i0 ∧
    i0 ≤ 1 ∧
    [F64.of_Z 3; F64.of_Z 3] !! i0 = Some d0 ∧ F64.eqb d0 (F64.of_Z 3) = true ∧
    (∀ j dj, j < i0 → [F64.of_Z 3; F64.of_Z 3] !! j = Some dj →
             F64.eqb dj (F64.of_Z 3) = false) ∧
    ∀ datapoints number_clusters draw clusters,
      random_sample datapoints number_clusters draw = Ok [east6; origin] →
      init_centroids datapoints number_clusters draw = Ok clusters →
      east3 ∈ datapoints →
      ∃ cluster, clusters !! i0 = Some cluster ∧ east3 ∈ cluster.
Proof.
  apply (closest_centroid_lowest_index [east6; origin] east3
           [F64.of_Z 3; F64.of_Z 3] 1 (F64.of_Z 3)).
  - discriminate.
  - vm_compute. reflexivity.
  - reflexivity.
  - intros [|[|j]] dj; cbn; intros [= <-]; vm_compute; reflexivity.
Defined.

(** A point at the same distance from the seeds at positions 0 and 1 goes
    to the cluster of position 0. *)
Example closest_centroid_tie : closest_centroid [east6; origin] east3 = Ok 0.
Proof. vm_compute. reflexivity. Qed.

(** A centroid with a NaN coordinate: every comparison with the minimum
    fails and the search finds no position. *)
Lemma closest_centroid_nan_IndexError :
  closest_centroid [(F64.nan, F64.of_Z 0)] origin = Raise IndexError.
Proof. vm_compute. reflexivity. Qed.

(** A squared difference out of the range of binary64. *)
Example closest_centroid_overflow :
  closest_centroid [(F64.of_Z_exp 1 600, F64.of_Z 0)] origin = Raise OverflowError.
Proof. vm_compute. reflexivity. Qed.

(** C9 (amended).  An index returned by [closest_centroid] is a position of
    the centroid list, so that the append of [init_centroids] at this
    index succeeds; an index is returned for a non-empty centroid list
    whenever all the distances are computed and none is NaN; and
    [ValueError], the failure of the minimum, is raised for the empty
    centroid list and for no other. *)
Theorem closest_centroid_index_in_range centroids datapoint :
  (∀ i, closest_centroid centroids datapoint = Ok i →
        i < length centroids ∧
        ∀ clusters, length clusters = length centroids →
                    ∃ clusters', append_at clusters i datapoint = Ok clusters') ∧
  (centroids ≠ [] → measurable centroids datapoint = true →
   ∃ i, closest_centroid centroids datapoint = Ok i ∧ i < length centroids) ∧
  (closest_centroid centroids datapoint = Raise ValueError ↔ centroids = []).
Proof.
  split_and!.
  - intros i Hi. pose proof (closest_centroid_lt _ _ _ Hi) as Hlt.
    split; [done|]. intros clusters Hlen. unfold append_at.
    rewrite <- Hlen in Hlt.
    destruct (lookup_lt_is_Some_2 clusters i Hlt) as [c ->]. by eexists.
  - apply closest_centroid_measurable.
  - split; [apply closest_centroid_ValueError|by intros ->].
Qed.

Lemma closest_centroid_index_in_range_witness :
  (∀ i, closest_centroid [east6; origin] east1 = Ok i →
        i < 2 ∧
        ∀ clusters, length clusters = 2 →
                    ∃ clusters', append_at clusters i east1 = Ok clusters') ∧
  ([east6; origin] ≠ [] → measurable [east6; origin] east1 = true →
   ∃ i, closest_centroid [east6; origin] east1 = Ok i ∧ i < 2) ∧
  (closest_centroid [east6; origin] east1 = Raise ValueError ↔ [east6; origin] = []).
Proof. exact (closest_centroid_index_in_range [east6; origin] east1). Defined.

(** ** Invalid numbers of clusters *)

(** No points and no clusters: the empty list of clusters is returned. *)
Lemma init_centroids_zero_of_empty : init_centroids [] 0 [] = Ok [].
Proof. reflexivity. Qed.

(** More clusters than points: the [ValueError] of [random.sample]. *)
Example init_centroids_too_many : init_centroids [origin; east6] 3 [] = Raise ValueError.
Proof. reflexivity. Qed.

(** C3 (amended).  For a number of clusters outside [1 .. n],
    [init_centroids] raises [ValueError] (from [random.sample] when
    [k < 0] or [k > n], from the minimum of no distances when [k = 0]),
    except that for the empty dataset and [k = 0] it returns the empty
    list of clusters. *)
Theorem init_centroids_invalid_cluster_count datapoints number_clusters draw :
  ¬ (1 ≤ number_clusters ≤ Z.of_nat (length datapoints))%Z →
  (number_clusters = 0%Z → draw = []) →
  init_centroids datapoints number_clusters draw =
    if decide (number_clusters = 0%Z ∧ datapoints = []) then Ok [] else Raise ValueError.
Proof.
  intros Hk Hdraw. unfold init_centroids, random_sample.
  case_decide as Hrange.
  - assert (number_clusters = 0%Z) as -> by lia. rewrite Hdraw by done. cbn.
    destruct datapoints as [|p l]; [by rewrite decide_True|].
    rewrite decide_False by (by intros [_ ?]). done.
  - cbn. rewrite decide_False; [done|]. intros [-> ->]. cbn in Hrange. lia.
Qed.

Lemma init_centroids_invalid_cluster_count_witness :
  ¬ (1 ≤ 0 ≤ Z.of_nat (length [origin; east6]))%Z ∧
  ((0 = 0)%Z → @nil nat = []) ∧
  init_centroids [origin; east6] 0 [] =
    if decide ((0 = 0)%Z ∧ [origin; east6] = []) then Ok [] else Raise ValueError.
Proof.
  assert (¬ (1 ≤ 0 ≤ Z.of_nat (length [origin; east6]))%Z) as H1 by lia.
  assert ((0 = 0)%Z → @nil nat = []) as H2 by reflexivity.
  split_and!; [exact H1|exact H2|].
  exact (init_centroids_invalid_cluster_count [origin; east6] 0 [] H1 H2).
Defined.

(** ** As many clusters as points *)

Section Singletons.

Implicit Types (x y d : float) (p q : Point) (datapoints samples : list Point).

Lemma binary_round_aux_sign s m e l :
  match binary_round_aux F64.prec F64.emax s m e l with
  | S754_zero s' | S754_infinity s' | S754_finite s' _ _ => s' = s
  | S754_nan => True
  end.
Proof.
  unfold binary_round_aux.
  destruct (shr_fexp F64.prec F64.emax m e l) as [mrs' e'].
  destruct (shr_fexp F64.prec F64.emax _ e' loc_Exact) as [mrs'' e''].
  destruct (shr_m mrs''); [done| |done].
  by destruct (e'' <=? F64.emax - F64.prec)%Z.
Qed.

(** A square root is never below zero. *)
Lemma sqrt_nonneg x : not_nan (F64.sqrt x) → F64.leb F64.zero (F64.sqrt x) = true.
Proof.
  destruct x as [s|[]| |[] m e]; try done.
  unfold F64.sqrt, SFsqrt.
  destruct (SFsqrt_core_binary F64.prec F64.emax (Z.pos m) e) as [[mz ez] lz].
  pose proof (binary_round_aux_sign false mz ez lz) as H.
  destruct (binary_round_aux F64.prec F64.emax false mz ez lz); try done; by subst.
Qed.

Lemma euclidean_distance_nonneg x1 x2 y1 y2 d :
  euclidean_distance x1 x2 y1 y2 = Ok d → not_nan d → F64.leb F64.zero d = true.
Proof.
  unfold euclidean_distance.
  destruct (py_pow2 (F64.sub x2 x1)) as [a|]; [|done]. cbn.
  destruct (py_pow2 (F64.sub y2 y1)) as [b|]; [|done]. cbn.
  intros [= <-]. apply sqrt_nonneg.
Qed.

Lemma sub_diag x : F64.is_finite x = true → F64.sub x x = F64.zero.
Proof.
  destruct x as [[]| | |s m e]; try done. intros _.
  unfold F64.sub, SFsub. by rewrite Z.sub_diag.
Qed.

(** A distance from a point to itself that is not NaN is zero. *)
Lemma euclidean_distance_self x y d :
  euclidean_distance x x y y = Ok d → not_nan d → d = F64.zero.
Proof.
  assert (∀ z, F64.is_finite z = false → py_pow2 (F64.sub z z) = Ok F64.nan) as Hnf.
  { intros [|[]| |]; done. }
  destruct (F64.is_finite x) eqn:Hx, (F64.is_finite y) eqn:Hy;
    unfold euclidean_distance;
    rewrite ?(sub_diag x Hx), ?(sub_diag y Hy), ?(Hnf x Hx), ?(Hnf y Hy); cbn.
  - by intros [= <-].
  - by intros [= <-].
  - by intros [= <-].
  - by intros [= <-].
Qed.

(** A draw of as many positions as there are points reaches every
    position. *)
Lemma valid_draw_full (n : nat) draw i :
  valid_draw n (Z.of_nat n) draw → i < n → ∃ j, draw !! j = Some i.
Proof.
  intros (Hlen & Hnd & Hlt) Hi.
  assert (draw ≡ₚ seq 0 n) as Hperm.
  { apply submseteq_length_Permutation.
    - apply NoDup_submseteq; [done|]. intros k Hk.
      rewrite Forall_forall in Hlt. apply elem_of_seq. specialize (Hlt k Hk). lia.
    - rewrite length_seq. lia. }
  apply list_elem_of_lookup. rewrite Hperm. apply elem_of_seq. lia.
Qed.

Lemma filter_none {A} (P : A → Prop) `{!∀ a, Decision (P a)} (l : list A) :
  Forall (λ b, ¬ P b) l → filter P l = [].
Proof. induction 1; [done|]. by rewrite filter_cons_False. Qed.

Lemma filter_one {A} (P : A → Prop) `{!∀ a, Decision (P a)} (l : list A) i a :
  l !! i = Some a → P a →
  (∀ i' b, i' ≠ i → l !! i' = Some b → ¬ P b) →
  filter P l = [a].
Proof.
  revert i. induction l as [|b l IH]; intros i; [done|].
  destruct i as [|i].
  - intros [= ->] Ha Hother. rewrite filter_cons_True by done. f_equal.
    apply filter_none, Forall_lookup. intros i' b Hb.
    by apply (Hother (S i') b).
  - intros Hi Ha Hother.
    rewrite filter_cons_False by (by apply (Hother 0 b)).
    apply (IH i); [done|done|]. intros i' b' Hne Hb'.
    apply (Hother (S i') b'); [lia|done].
Qed.

Variables (datapoints : list Point) (draw : list nat) (samples : list Point).

Hypothesis Hdraw : valid_draw (length datapoints) (Z.of_nat (length datapoints)) draw.
Hypothesis Hsamples : Forall2 (λ i s, datapoints !! i = Some s) draw samples.
Hypothesis Hmeasurable : Forall (λ p, measurable datapoints p = true) datapoints.
Hypothesis Hapart :
  ∀ i j p q, i ≠ j → datapoints !! i = Some p → datapoints !! j = Some q →
             nonzero_distance p q = true.

(** The point at position [i] is nearest to the seed drawn from
    position [i], and to no other. *)
Lemma closest_centroid_own_seed i j p :
  datapoints !! i = Some p → draw !! j = Some i →
  closest_centroid samples p = Ok j.
Proof.
  intros Hp Hj.
  assert (samples ⊆ datapoints) as Hsub.
  { intros s [k Hk]%list_elem_of_lookup.
    destruct (Forall2_lookup_r _ _ _ _ _ Hsamples Hk) as (i' & _ & Hi').
    by eapply list_elem_of_lookup_2. }
  assert (samples !! j = Some p) as Hsj.
  { destruct (Forall2_lookup_l _ _ _ _ _ Hsamples Hj) as (s & Hs & Hs'). congruence. }
  assert (measurable samples p = true) as Hm.
  { eapply measurable_subseteq; [done|].
    rewrite Forall_forall in Hmeasurable. apply Hmeasurable.
    by eapply list_elem_of_lookup_2. }
  apply measurable_spec in Hm as (distances & Hd & Hnan).
  destruct (closest_centroid_first samples p distances) as
    (k & m & x & Hrun & Hk & Hx & Hxm & Hall & _); [by destruct samples|done|done|].
  rewrite Hrun. f_equal.
  pose proof (collect_Forall2 _ _ _ Hd) as Hcol.
  rewrite Forall_forall in Hnan, Hall.
  (* the distance at position [j] is zero *)
  destruct (Forall2_lookup_l _ _ _ _ _ Hcol Hsj) as (dj & Hdj & Hself).
  apply euclidean_distance_self in Hself;
    [|apply Hnan; by eapply list_elem_of_lookup_2]. subst dj.
  (* the distance at the position found is zero as well *)
  destruct (Forall2_lookup_r _ _ _ _ _ Hcol Hx) as (s & Hs & Hdist).
  assert (F64.eqb x F64.zero = true) as Hzero.
  { apply leb_antisym.
    - eapply leb_trans; [by apply eqb_leb|].
      apply Hall. by eapply list_elem_of_lookup_2.
    - eapply euclidean_distance_nonneg; [done|].
      apply Hnan. by eapply list_elem_of_lookup_2. }
  destruct (decide (k = j)) as [|Hne]; [done|exfalso].
  destruct (Forall2_lookup_r _ _ _ _ _ Hsamples Hs) as (i' & Hi' & Hdp).
  assert (i' ≠ i) as Hii'.
  { intros ->. destruct Hdraw as (_ & Hnd & _).
    by pose proof (NoDup_lookup _ _ _ _ Hnd Hi' Hj). }
  pose proof (Hapart i' i s p Hii' Hdp Hp) as Hnz.
  cbv zeta in Hdist.
  unfold nonzero_distance in Hnz. rewrite Hdist, Hzero in Hnz. done.
Qed.

Lemma assigned_to_own_seed i j p :
  datapoints !! i = Some p → draw !! j = Some i →
  assigned_to samples j datapoints = [p].
Proof.
  intros Hp Hj. apply (filter_one _ _ i); [done|by eapply closest_centroid_own_seed|].
  intros i' q Hne Hq Hrun.
  destruct (valid_draw_full _ draw i' Hdraw) as [j' Hj'];
    [by eapply lookup_lt_Some|].
  rewrite (closest_centroid_own_seed i' j' q Hq Hj') in Hrun.
  injection Hrun as ->. congruence.
Qed.

End Singletons.

(** Two points with different coordinates whose distance is computed as
    zero (the square of [2^-600] underflows): both go to the first
    cluster and the second stays empty. *)
Lemma init_centroids_underflow_merges :
  point_eqb origin tiny = false ∧
  NoDup [origin; tiny] ∧
  init_centroids [origin; tiny] 2 [0; 1] = Ok [[origin; tiny]; []].
Proof.
  split_and!.
  - vm_compute. reflexivity.
  - apply (bool_decide_unpack _). vm_compute. exact I.
  - vm_compute. reflexivity.
Qed.

(** C6 (amended).  With as many clusters as points, when all the distances
    between points of the dataset are computed and are not NaN, and the
    computed distance between points at two different positions is never
    zero, [init_centroids] returns one cluster per point and each cluster
    holds exactly its own seed. *)
Theorem init_centroids_singletons datapoints draw :
  valid_draw (length datapoints) (Z.of_nat (length datapoints)) draw →
  Forall (λ p, measurable datapoints p = true) datapoints →
  (∀ i j p q, i ≠ j → datapoints !! i = Some p → datapoints !! j = Some q →
              nonzero_distance p q = true) →
  ∃ clusters,
    init_centroids datapoints (Z.of_nat (length datapoints)) draw = Ok clusters ∧
    length clusters = length datapoints ∧
    ∀ j cluster, clusters !! j = Some cluster →
      ∃ i p, draw !! j = Some i ∧ datapoints !! i = Some p ∧ cluster = [p].
Proof.
  intros Hdraw Hmeas Hapart.
  destruct (random_sample datapoints (Z.of_nat (length datapoints)) draw)
    as [samples|e] eqn:Hs; [|apply random_sample_Raise in Hs; lia].
  destruct (random_sample_valid _ _ _ _ Hdraw Hs) as [Hsamples Hlen].
  assert (∃ clusters,
    init_centroids datapoints (Z.of_nat (length datapoints)) draw = Ok clusters)
    as [clusters Hrun].
  { unfold init_centroids. rewrite Hs. cbn.
    apply for_each_assign_total; [by rewrite length_fmap|].
    apply Forall_lookup. intros i p Hp.
    destruct (valid_draw_full _ draw i Hdraw) as [j Hj]; [by eapply lookup_lt_Some|].
    exists j. by eapply closest_centroid_own_seed. }
  exists clusters. split; [done|].
  destruct (init_centroids_clusters _ _ _ _ _ Hs Hrun) as [Hlen' Hcl].
  split; [lia|].
  intros j cluster Hj.
  assert (j < length samples) as Hlt by (rewrite <- Hlen'; by eapply lookup_lt_Some).
  rewrite (Hcl j Hlt) in Hj. injection Hj as <-.
  destruct (lookup_lt_is_Some_2 samples j Hlt) as [p Hp].
  destruct (Forall2_lookup_r _ _ _ _ _ Hsamples Hp) as (i & Hi & Hdp).
  exists i, p. split_and!; [done|done|].
  by eapply assigned_to_own_seed.
Qed.

Lemma init_centroids_singletons_witness :
  ∃ clusters,
    init_centroids [origin; east6; east1] 3 [2; 0; 1] = Ok clusters ∧
    length clusters = 3 ∧
    ∀ j cluster, clusters !! j = Some cluster →
      ∃ i p, [2; 0; 1] !! j = Some i ∧ [origin; east6; east1] !! i = Some p ∧
             cluster = [p].
Proof.
  apply (init_centroids_singletons [origin; east6; east1] [2; 0; 1]).
  - apply (bool_decide_unpack _). vm_compute. exact I.
  - apply (bool_decide_unpack _). vm_compute. exact I.
  - intros [|[|[|i]]] [|[|[|j]]] p q Hne; cbn; intros [= <-] [= <-];
      try done; vm_compute; reflexivity.
Defined.

Example init_centroids_singletons_run :
  init_centroids [origin; east6; east1] 3 [2; 0; 1] = Ok [[east1]; [origin]; [east6]].
Proof. vm_compute. reflexivity. Qed.

(** ** [mean_data] *)

Section MeanData.

Implicit Types (cluster : list Point) (a : list float).

(** The loop of [mean_data] splits the cluster into its two coordinate
    lists. *)
Lemma coordinate_lists cluster x0 y0 :
  foldl (λ '(x, y) point, (x ++ [point.1], y ++ [point.2])) (x0, y0) cluster
  = (x0 ++ cluster.*1, y0 ++ cluster.*2).
Proof.
  revert x0 y0. induction cluster as [|p cluster IH]; intros x0 y0; cbn.
  - by rewrite !app_nil_r.
  - rewrite IH. by rewrite <- !app_assoc.
Qed.

Lemma mean_data_output cluster :
  mean_data cluster =
    ([birthrate_line (np_round (np_mean (cluster.*1)) 2);
      life_expectancy_line (np_round (np_mean (cluster.*2)) 2);
      [Txt newline]], Ok ()).
Proof. unfold mean_data. by rewrite coordinate_lists. Qed.


End MeanData.

(** The summary printed for an empty cluster: NaN twice, and no
    exception. *)
Lemma mean_data_empty :
  mean_data [] = ([birthrate_line F64.nan; life_expectancy_line F64.nan; [Txt newline]],
                  Ok ()).
Proof. vm_compute. reflexivity. Qed.

(** Two seeds with the same coordinates: the second cluster stays empty,
    and its summary is the one above. *)
Example init_centroids_duplicate_seeds :
  init_centroids [east1; east1; east3] 2 [0; 1] = Ok [[east1; east1; east3]; []].
Proof. vm_compute. reflexivity. Qed.

(** C4 (amended).  [mean_data] raises no exception, whatever the cluster;
    for the empty cluster both reported means are NaN. *)
Theorem mean_data_never_raises cluster :
  ∃ out, mean_data cluster = (out, Ok ()) ∧
         (cluster = [] →
          out = [birthrate_line F64.nan; life_expectancy_line F64.nan; [Txt newline]]).
Proof.
  eexists. split; [apply mean_data_output|].
  intros ->. vm_compute. reflexivity.
Qed.

Lemma mean_data_never_raises_witness :
  ∃ out, mean_data [origin; east6] = (out, Ok ()) ∧
         ([origin; east6] = [] →
          out = [birthrate_line F64.nan; life_expectancy_line F64.nan; [Txt newline]]).
Proof. exact (mean_data_never_raises [origin; east6]). Defined.

(** *** Rounding to an integer

    [rint] shifts the mantissa to the right and rounds it by the two bits
    that the shift keeps track of; this is the rounding of the quotient
    to the nearest integer, ties to even. *)

Section Shifts.

Local Open Scope Z_scope.






End Shifts.


(** *** Integers as floats

    An integer below [2^53] in absolute value is a binary64 number, and
    the sum of two such integers is computed exactly when it is below
    [2^53] too. *)

Section Exact.

Local Open Scope Z_scope.


















End Exact.

(** *** Sums of integers

    Whatever the order in which NumPy adds them, integers whose absolute
    values add up to less than [2^53] are summed exactly. *)

Section Sums.

Local Open Scope Z_scope.

Implicit Types (l zs : list Z) (a : list float).













End Sums.

(** *** The means that are printed *)







(** ** [get_country] *)

Section GetCountry.

Implicit Types (cluster : list Point) (data : dict).

Lemma countries_of_filter cluster data country_list :
  countries_of cluster data country_list
  = country_list ++ matching_countries cluster data.
Proof.
  unfold matching_countries.
  revert country_list. induction data as [|[country point] data IH];
    intros country_list; cbn [countries_of].
  - by rewrite app_nil_r.
  - destruct (point_in point cluster) eqn:Hin.
    + rewrite filter_cons_True by done. rewrite IH. by rewrite <- app_assoc.
    + rewrite filter_cons_False by (cbn; congruence). apply IH.
Qed.

Lemma point_in_spec point cluster :
  point_in point cluster = true ↔ ∃ q, q ∈ cluster ∧ point_eqb q point = true.
Proof.
  unfold point_in. rewrite existsb_exists.
  split; intros (q & Hq & Heq); exists q; by rewrite ?list_elem_of_In in *.
Qed.

End GetCountry.

Section GetCountryObjects.

Implicit Types (cluster : list Objects.tuple_object) (data : Objects.dict).
Implicit Types (p q : Objects.tuple_object) (a b : Objects.float_object).

(** Identity adds nothing to the comparison with a float that is not
    NaN. *)
Lemma float_equal_value a b :
  F64.is_nan b.2 = false → Objects.float_equal a b = F64.eqb a.2 b.2.
Proof.
  intros Hb. unfold Objects.float_equal, Objects.is_.
  case_bool_decide as Hab; [|done].
  subst a. cbn. symmetry. by apply eqb_refl.
Qed.

(** Nor to the comparison with a tuple that has no NaN item: the
    comparison of the objects is the one of their values. *)
Lemma tuple_equal_value p q :
  no_nan_coordinate (Objects.value q) →
  Objects.tuple_equal p q = point_eqb (Objects.value p) (Objects.value q).
Proof.
  intros [Hx Hy]. unfold Objects.tuple_equal, Objects.is_, point_eqb.
  rewrite !float_equal_value by done.
  case_bool_decide as Hpq; [|done].
  subst p. cbn. symmetry. apply andb_true_iff. split; by apply eqb_refl.
Qed.

Lemma contains_value p cluster :
  no_nan_coordinate (Objects.value p) →
  Objects.contains p cluster = point_in (Objects.value p) (Objects.value <$> cluster).
Proof.
  intros Hp. unfold Objects.contains, point_in.
  induction cluster as [|q cluster IH]; [done|].
  cbn. by rewrite IH, tuple_equal_value.
Qed.




(** On a mapping without NaN, [get_country] on objects and on their
    values print the same. *)
Lemma get_country_values cluster data :
  Forall (λ item, no_nan_coordinate (Objects.value item.2)) data →
  Objects.get_country cluster data = get_country (Objects.value <$> cluster) (values_of data).
Proof.
  intros Hdata. unfold Objects.get_country, get_country.
  assert (∀ country_list,
    Objects.countries_of cluster data country_list
    = countries_of (Objects.value <$> cluster) (values_of data) country_list) as ->; [|done].
  unfold values_of.
  induction Hdata as [|[country point] data Hpoint Hdata IH]; intros country_list; [done|].
  cbn [Objects.countries_of fmap list_fmap countries_of prod_map fst snd id].
  rewrite contains_value by done. by rewrite !IH.
Qed.

End GetCountryObjects.




Example get_country_shared_coordinates :
  get_country [east1] [("Norway", east1); ("Chad", east6); ("Sweden", east1)] =
    ([[Txt "Norway, Sweden"]; [Txt "Number of countries in the cluster: "; Int 2]], Ok ()).
Proof. vm_compute. reflexivity. Qed.

(** ** [read_csv] *)

Section ReadCsv.

Variable py_float : string → result float.

Implicit Types (row : list string) (rows : list (list string)) (data : dict).

Lemma read_row_well_formed data row :
  well_formed_row py_float row = true → ∃ data', read_row py_float data row = Ok data'.
Proof.
  destruct row as [|country [|field1 [|field2 rest]]]; try done.
  unfold read_row. cbn.
  destruct (py_float field1), (py_float field2); try done. cbn. by eexists.
Qed.

Lemma read_row_malformed data row :
  well_formed_row py_float row = false →
  ∃ e, read_row py_float data row = Raise e ∧ row_exception py_float e.
Proof.
  unfold read_row, row_exception.
  destruct row as [|country [|field1 [|field2 rest]]]; cbn.
  - intros _. exists IndexError. split; [done|by left].
  - intros _. exists IndexError. split; [done|by left].
  - intros _. destruct (py_float field1) as [b|e] eqn:H1; cbn.
    + exists IndexError. split; [done|by left].
    + exists e. split; [done|right; by exists field1].
  - destruct (py_float field1) as [b|e] eqn:H1; cbn.
    + destruct (py_float field2) as [l|e] eqn:H2; [done|]. cbn.
      intros _. exists e. split; [done|right; by exists field2].
    + intros _. exists e. split; [done|right; by exists field1].
Qed.

Lemma read_rows_well_formed rows data :
  Forall (λ row, well_formed_row py_float row = true) rows →
  ∃ data', for_each (read_row py_float) rows data = Ok data'.
Proof.
  intros H. revert data. induction H as [|row rows Hrow _ IH]; intros data; cbn.
  - by eexists.
  - destruct (read_row_well_formed data row Hrow) as [data' ->]. cbn. apply IH.
Qed.

Lemma read_rows_malformed rows data :
  Exists (λ row, well_formed_row py_float row = false) rows →
  ∃ e, for_each (read_row py_float) rows data = Raise e ∧ row_exception py_float e.
Proof.
  revert data. induction rows as [|row rows IH]; intros data H; [by inversion H|].
  cbn. destruct (well_formed_row py_float row) eqn:Hrow.
  - destruct (read_row_well_formed data row Hrow) as [data' ->]. cbn.
    apply IH. inversion H; [congruence|done].
  - destruct (read_row_malformed data row Hrow) as (e & -> & He). cbn. by exists e.
Qed.

End ReadCsv.

(** A field that is no number: [ValueError] leaves [read_csv], nothing is
    printed and no dataset is returned, not even the rows read so far. *)
Lemma read_csv_malformed_field_raises :
  read_csv float_of_decimal sample_files "data.csv" = ([], Raise ValueError).
Proof. vm_compute. reflexivity. Qed.

Example read_csv_missing_field_raises :
  read_csv float_of_decimal sample_files "short.csv" = ([], Raise IndexError).
Proof. vm_compute. reflexivity. Qed.

Example read_csv_good_file :
  ∃ a b c d,
    read_csv float_of_decimal sample_files "good.csv"
    = ([], Ok [("Albania", (a, b)); ("Norway", (c, d))]).
Proof. do 4 eexists. vm_compute. reflexivity. Qed.

(** C8 (amended).  A missing file is reported by a printed message and
    gives the empty dataset.  For a file with a header, [read_csv] returns
    a dataset when every row has a name and two fields that convert to
    numbers; as soon as a row lacks a field or has a field that does not
    convert, it prints nothing and raises an exception ([IndexError], or
    the exception of the conversion) instead of returning a dataset. *)
Theorem read_csv_outcomes py_float fs file :
  (fs file = None →
   read_csv py_float fs file = ([[Txt "Please enter the correct file name!"]], Ok [])) ∧
  (∀ header rows, fs file = Some (header :: rows) →
     (Forall (λ row, well_formed_row py_float row = true) rows →
      ∃ data, read_csv py_float fs file = ([], Ok data)) ∧
     (Exists (λ row, well_formed_row py_float row = false) rows →
      ∃ e, read_csv py_float fs file = ([], Raise e) ∧ row_exception py_float e)).
Proof.
  split.
  - intros H. unfold read_csv. by rewrite H.
  - intros header rows H. unfold read_csv. rewrite H. split.
    + intros Hall.
      destruct (read_rows_well_formed py_float rows [] Hall) as [data Hdata].
      exists data. unfold py_lift. f_equal. exact Hdata.
    + intros Hex.
      destruct (read_rows_malformed py_float rows [] Hex) as (e & He & Hexn).
      exists e. split; [|done]. unfold py_lift. f_equal. exact He.
Qed.

Lemma read_csv_outcomes_witness :
  (sample_files "data.csv" = None →
   read_csv float_of_decimal sample_files "data.csv"
   = ([[Txt "Please enter the correct file name!"]], Ok [])) ∧
  (∀ header rows, sample_files "data.csv" = Some (header :: rows) →
     (Forall (λ row, well_formed_row float_of_decimal row = true) rows →
      ∃ data, read_csv float_of_decimal sample_files "data.csv" = ([], Ok data)) ∧
     (Exists (λ row, well_formed_row float_of_decimal row = false) rows →
      ∃ e, read_csv float_of_decimal sample_files "data.csv" = ([], Raise e) ∧
           row_exception float_of_decimal e)).
Proof. exact (read_csv_outcomes float_of_decimal sample_files "data.csv"). Defined.

(** * Further properties *)

(** ** [euclidean_distance] *)

Section Distance.

Implicit Types (x y a b : float).

Lemma binary_round_aux_opp s m e l :
  binary_round_aux F64.prec F64.emax (negb s) m e l
  = SFopp (binary_round_aux F64.prec F64.emax s m e l).
Proof.
  unfold binary_round_aux.
  destruct (shr_fexp F64.prec F64.emax m e l) as [mrs' e'].
  destruct (shr_fexp F64.prec F64.emax _ e' loc_Exact) as [mrs'' e''].
  destruct (shr_m mrs''); [done| |done].
  by destruct (e'' <=? F64.emax - F64.prec)%Z.
Qed.

Lemma binary_normalize_opp (m e : Z) :
  m ≠ 0%Z →
  binary_normalize F64.prec F64.emax (- m) e false
  = SFopp (binary_normalize F64.prec F64.emax m e false).
Proof.
  intros Hm. destruct m as [|p|p]; [done| |].
  - change (- Z.pos p)%Z with (Z.neg p). unfold binary_normalize, binary_round.
    destruct (shl_align p e _) as [mz ez].
    apply (binary_round_aux_opp false).
  - change (- Z.neg p)%Z with (Z.pos p). unfold binary_normalize, binary_round.
    destruct (shl_align p e _) as [mz ez].
    apply (binary_round_aux_opp true).
Qed.

(** The square forgets the sign. *)
Lemma py_pow2_opp x : py_pow2 (SFopp x) = py_pow2 x.
Proof. destruct x as [s|s| |s m e]; try done. by destruct s. Qed.

Lemma py_pow2_sub_swap a b : py_pow2 (F64.sub a b) = py_pow2 (F64.sub b a).
Proof.
  destruct a as [sa|sa| |sa ma ea], b as [sb|sb| |sb mb eb];
    try done; try (by destruct sa, sb).
  unfold F64.sub, SFsub. rewrite (Z.min_comm eb ea).
  set (A := cond_Zopp sa _). set (B := cond_Zopp sb _).
  replace (B - A)%Z with (- (A - B))%Z by lia.
  destruct (decide (A - B = 0)%Z) as [->|Hne]; [done|].
  rewrite binary_normalize_opp by done. symmetry. apply py_pow2_opp.
Qed.

End Distance.

(** X1.  The distance does not depend on the order of the two points:
    swapping them gives the same number, or the same [OverflowError]. *)
Theorem euclidean_distance_symmetric x1 x2 y1 y2 :
  euclidean_distance x1 x2 y1 y2 = euclidean_distance x2 x1 y2 y1.
Proof.
  unfold euclidean_distance.
  by rewrite (py_pow2_sub_swap x2 x1), (py_pow2_sub_swap y2 y1).
Qed.

(** X2.  The distance from a point to itself is zero when both coordinates
    are finite, and NaN when one of them is infinite or NaN; it never
    raises. *)
Theorem euclidean_distance_to_itself x y :
  euclidean_distance x x y y
  = Ok (if F64.is_finite x && F64.is_finite y then F64.zero else F64.nan).
Proof.
  assert (∀ z, F64.is_finite z = false → py_pow2 (F64.sub z z) = Ok F64.nan) as Hnf.
  { intros [|[]| |]; done. }
  destruct (F64.is_finite x) eqn:Hx, (F64.is_finite y) eqn:Hy;
    unfold euclidean_distance;
    rewrite ?(sub_diag x Hx), ?(sub_diag y Hy), ?(Hnf x Hx), ?(Hnf y Hy); done.
Qed.

(** X3.  A distance that is returned is NaN or at least zero, and the only
    exception of [euclidean_distance] is [OverflowError]. *)
Theorem euclidean_distance_range x1 x2 y1 y2 :
  match euclidean_distance x1 x2 y1 y2 with
  | Ok d => F64.is_nan d = true ∨ F64.leb F64.zero d = true
  | Raise e => e = OverflowError
  end.
Proof.
  destruct (euclidean_distance x1 x2 y1 y2) as [d|e] eqn:Hd.
  - destruct (F64.is_nan d) eqn:Hnan; [by left|right].
    by eapply euclidean_distance_nonneg.
  - by eapply euclidean_distance_Raise.
Qed.

(** ** [closest_centroid] *)

Section Nearest.

Implicit Types (d m : float) (l distances : list float) (centroids : list Point).

(** A NaN among the arguments of the minimum is its result. *)
Lemma np_minimum_not_nan a b : not_nan (np_minimum a b) → not_nan a ∧ not_nan b.
Proof.
  unfold np_minimum, not_nan.
  destruct (F64.is_nan a) eqn:Ha.
  - rewrite orb_true_r. congruence.
  - rewrite orb_false_r. destruct (F64.leb a b) eqn:Hab; [|done].
    intros _. split; [done|]. by destruct (leb_not_nan _ _ Hab).
Qed.

Lemma foldl_minimum_not_nan l acc :
  not_nan (foldl np_minimum acc l) → not_nan acc ∧ Forall not_nan l.
Proof.
  revert acc. induction l as [|b l IH]; intros acc; cbn; [by split|].
  intros [[Ha Hb]%np_minimum_not_nan Hl]%IH. split; [done|by constructor].
Qed.

Lemma np_amin_not_nan l m : np_amin l = Ok m → not_nan m → Forall not_nan l.
Proof.
  destruct l as [|a l]; [done|]. cbn. intros [= <-] [Ha Hl]%foldl_minimum_not_nan.
  by constructor.
Qed.

Lemma where_from_nan k l m : F64.is_nan m = true → where_from k l m = [].
Proof.
  destruct m; try done. intros _. revert k.
  induction l as [|a l IH]; intros k; cbn; [done|].
  by rewrite (eqb_nan_r a : F64.eqb a S754_nan = false).
Qed.

Lemma collect_ext {A B} (f g : A → result B) (l : list A) :
  (∀ a, f a = g a) → collect f l = collect g l.
Proof. intros Hfg. induction l as [|a l IH]; cbn; [done|]. by rewrite Hfg, IH. Qed.

(** Two numbers that are [==] are the same number, or two zeros. *)
Lemma eqb_cases a b :
  F64.eqb a b = true → a = b ∨ (F64.is_zero a = true ∧ F64.is_zero b = true).
Proof.
  intros H. destruct (eqb_not_nan _ _ H) as [Ha Hb].
  apply (eqb_key _ _ Ha Hb) in H.
  destruct a as [sa|[]| |[] ma ea], b as [sb|[]| |[] mb eb]; try done;
    cbn in H; try (by right); left; simplify_eq; try done.
  f_equal. lia.
Qed.

Lemma py_pow2_sub_zero a b c :
  F64.is_zero a = true → F64.is_zero b = true →
  py_pow2 (F64.sub a c) = py_pow2 (F64.sub b c).
Proof. destruct a as [[]| | |], b as [[]| | |], c as [[]|[]| |]; done. Qed.

Lemma euclidean_distance_eqb x1 x2 x2' y1 y2 y2' :
  F64.eqb x2 x2' = true → F64.eqb y2 y2' = true →
  euclidean_distance x1 x2 y1 y2 = euclidean_distance x1 x2' y1 y2'.
Proof.
  intros Hx Hy. unfold euclidean_distance.
  assert (py_pow2 (F64.sub x2 x1) = py_pow2 (F64.sub x2' x1)) as ->.
  { destruct (eqb_cases _ _ Hx) as [->|[??]]; [done|by apply py_pow2_sub_zero]. }
  assert (py_pow2 (F64.sub y2 y1) = py_pow2 (F64.sub y2' y1)) as ->.
  { destruct (eqb_cases _ _ Hy) as [->|[??]]; [done|by apply py_pow2_sub_zero]. }
  done.
Qed.

(** Points that are [==] have the same nearest centroid. *)
Lemma closest_centroid_point_eqb centroids p q :
  point_eqb p q = true → closest_centroid centroids p = closest_centroid centroids q.
Proof.
  unfold point_eqb. intros [Hx Hy]%andb_true_iff.
  unfold closest_centroid, distances_to.
  rewrite (collect_ext _ (λ point,
    let x1 := point.1 in let y1 := point.2 in
    let x2 := q.1 in let y2 := q.2 in euclidean_distance x1 x2 y1 y2)); [done|].
  intros c. by apply euclidean_distance_eqb.
Qed.

End Nearest.

(** X4.  The index that [closest_centroid] returns is the one of a nearest
    centroid: its distance is at most every other distance, and it is
    the first position with that distance. *)
Theorem closest_centroid_nearest centroids datapoint i :
  closest_centroid centroids datapoint = Ok i →
  ∃ distances di,
    distances_to centroids datapoint = Ok distances ∧
    distances !! i = Some di ∧
    Forall (λ d, F64.leb di d = true) distances ∧
    ∀ j dj, j < i → distances !! j = Some dj → F64.eqb dj di = false.
Proof.
  intros (distances & m & x & Hd & Hm & Hi & Hxm & Hfirst)%closest_centroid_Ok.
  destruct (eqb_not_nan _ _ Hxm) as [_ Hnan].
  pose proof (np_amin_not_nan _ _ Hm Hnan) as Hall.
  destruct (np_amin_spec distances) as (m' & Hm' & _ & _ & Hle);
    [by intros ->|done|].
  rewrite Hm in Hm'. injection Hm' as <-.
  exists distances, x. split_and!; [done|done| |].
  - eapply Forall_impl; [exact Hle|]. cbn. intros d Hd'.
    eapply leb_trans; [by apply eqb_leb|done].
  - intros j dj Hlt Hj. destruct (F64.eqb dj x) eqn:E; [|done].
    rewrite <- (Hfirst j dj Hlt Hj). symmetry. by eapply eqb_trans.
Qed.

Lemma closest_centroid_nearest_witness :
  ∃ distances di,
    distances_to [east6; origin] east1 = Ok distances ∧
    distances !! 1 = Some di ∧
    Forall (λ d, F64.leb di d = true) distances ∧
    ∀ j dj, j < 1 → distances !! j = Some dj → F64.eqb dj di = false.
Proof.
  apply (closest_centroid_nearest [east6; origin] east1 1).
  vm_compute. reflexivity.
Defined.

(** X5.  The failures of [closest_centroid], all of them: [ValueError]
    for no centroid at all, [OverflowError] when a squared difference is
    out of range, [IndexError] when the distances are computed and one of
    them is NaN. *)
Theorem closest_centroid_failures centroids datapoint e :
  closest_centroid centroids datapoint = Raise e ↔
  (e = ValueError ∧ centroids = []) ∨
  (e = OverflowError ∧ distances_to centroids datapoint = Raise OverflowError) ∨
  (e = IndexError ∧
   ∃ distances, distances_to centroids datapoint = Ok distances ∧
                Exists (λ d, F64.is_nan d = true) distances).
Proof.
  split.
  - unfold closest_centroid.
    destruct (distances_to centroids datapoint) as [distances|e'] eqn:Hd; cbn.
    + destruct (np_amin distances) as [m|e'] eqn:Hm; cbn.
      * destruct (np_where_eq distances m) as [|i rest] eqn:Hw; [|done].
        intros [= <-]. right. right. split; [done|]. exists distances. split; [done|].
        destruct (decide (Forall not_nan distances)) as [Hall|Hex].
        -- destruct (closest_centroid_first centroids datapoint distances)
             as (i & _ & _ & Hrun & _); [|done|done|].
           ++ intros ->. apply distances_to_length in Hd. destruct distances; done.
           ++ unfold closest_centroid in Hrun. rewrite Hd in Hrun. cbn in Hrun.
              rewrite Hm in Hrun. cbn in Hrun. by rewrite Hw in Hrun.
        -- apply not_Forall_Exists in Hex; [|apply _].
           eapply Exists_impl; [exact Hex|]. cbn. unfold not_nan.
           intros d. by destruct (F64.is_nan d).
      * apply np_amin_Raise in Hm as [-> ->]. intros [= <-]. left. split; [done|].
        apply distances_to_length in Hd. by destruct centroids.
    + pose proof (distances_to_Raise _ _ _ Hd) as ->. intros [= <-]. right. by left.
  - intros [[-> ->]|[[-> Hd]|(-> & distances & Hd & Hex)]].
    + reflexivity.
    + unfold closest_centroid. by rewrite Hd.
    + unfold closest_centroid. rewrite Hd. cbn.
      destruct (np_amin distances) as [m|e] eqn:Hm; cbn.
      * destruct (F64.is_nan m) eqn:Hnan.
        -- unfold np_where_eq. by rewrite where_from_nan.
        -- pose proof (np_amin_not_nan _ _ Hm Hnan) as Hall.
           apply Exists_exists in Hex as (d & Hin & Hd').
           rewrite Forall_forall in Hall. specialize (Hall d Hin).
           unfold not_nan in Hall. congruence.
      * apply np_amin_Raise in Hm as [-> _]. by inversion Hex.
Qed.

(** X6.  Two points of the dataset that compare equal ([==]) are put in
    the same cluster. *)
Theorem init_centroids_equal_points_together datapoints number_clusters draw clusters p q :
  init_centroids datapoints number_clusters draw = Ok clusters →
  p ∈ datapoints → q ∈ datapoints → point_eqb p q = true →
  ∀ j cluster, clusters !! j = Some cluster → (p ∈ cluster ↔ q ∈ cluster).
Proof.
  intros Hrun Hp Hq Heq j cluster Hj.
  destruct (init_centroids_Ok _ _ _ _ Hrun) as (samples & Hs & _).
  destruct (init_centroids_clusters _ _ _ _ _ Hs Hrun) as [Hlen Hcl].
  assert (j < length samples) as Hlt by (rewrite <- Hlen; by eapply lookup_lt_Some).
  rewrite (Hcl j Hlt) in Hj. injection Hj as <-.
  unfold assigned_to. rewrite !list_elem_of_filter.
  rewrite (closest_centroid_point_eqb samples p q Heq). tauto.
Qed.

Lemma init_centroids_equal_points_together_witness :
  minus_origin ∈ [minus_origin; origin] ↔ origin ∈ [minus_origin; origin].
Proof.
  apply (init_centroids_equal_points_together [minus_origin; east6; origin] 2 [0; 1]
           [[minus_origin; origin]; [east6]] minus_origin origin) with (j := 0).
  - vm_compute. reflexivity.
  - apply (bool_decide_unpack _). vm_compute. exact I.
  - apply (bool_decide_unpack _). vm_compute. exact I.
  - vm_compute. reflexivity.
  - reflexivity.
Defined.

(** ** [init_centroids] *)

Section Runs.

Implicit Types (datapoints samples : list Point) (clusters : list (list Point)).

Lemma filter_all {A} (P : A → Prop) `{!∀ a, Decision (P a)} (l : list A) :
  Forall P l → filter P l = l.
Proof. induction 1; [done|]. rewrite filter_cons_True by done. by f_equal. Qed.

Lemma filter_iff_elem {A} (P Q : A → Prop)
    `{!∀ a, Decision (P a), !∀ a, Decision (Q a)} (l : list A) :
  (∀ a, a ∈ l → P a ↔ Q a) → filter P l = filter Q l.
Proof.
  induction l as [|a l IH]; intros Hiff; [done|].
  assert (filter P l = filter Q l) as Hl
    by (apply IH; intros b Hb; apply Hiff; by right).
  assert (P a ↔ Q a) as Ha by (apply Hiff; by left).
  destruct (decide (P a)) as [HP|HP].
  - rewrite !filter_cons_True by tauto. by f_equal.
  - rewrite !filter_cons_False by tauto. done.
Qed.

Lemma closest_centroid_failures_kinds samples p e :
  closest_centroid samples p = Raise e →
  (e = ValueError ∧ samples = []) ∨ e = OverflowError ∨ e = IndexError.
Proof.
  unfold closest_centroid.
  destruct (distances_to samples p) as [distances|e'] eqn:Hd; cbn.
  - destruct (np_amin distances) as [m|e'] eqn:Hm; cbn.
    + destruct (np_where_eq distances m); [|done]. intros [= <-]. by do 2 right.
    + apply np_amin_Raise in Hm as [-> ->]. intros [= <-]. left. split; [done|].
      apply distances_to_length in Hd. by destruct samples.
  - apply distances_to_Raise in Hd as ->. intros [= <-]. right. by left.
Qed.

(** A NaN coordinate of the point makes every distance NaN. *)
Lemma euclidean_distance_nan_coordinate x1 x2 y1 y2 d :
  F64.is_nan x2 = true ∨ F64.is_nan y2 = true →
  euclidean_distance x1 x2 y1 y2 = Ok d → F64.is_nan d = true.
Proof.
  unfold euclidean_distance. intros [Hx|Hy].
  - destruct x2; try done. destruct x1; cbn;
      destruct (py_pow2 (F64.sub y2 y1)) as [b|]; cbn; try done;
      intros [= <-]; by destruct b.
  - destruct y2; try done.
    destruct (py_pow2 (F64.sub x2 x1)) as [a|]; [|done]. cbn.
    replace (py_pow2 (F64.sub S754_nan y1)) with (Ok F64.nan) by (by destruct y1).
    cbn. intros [= <-]. by destruct a.
Qed.

(** A point that gets an index has no NaN coordinate. *)
Lemma closest_centroid_Ok_not_nan samples p i :
  closest_centroid samples p = Ok i → not_nan p.1 ∧ not_nan p.2.
Proof.
  intros (distances & m & x & Hd & _ & Hi & Hxm & _)%closest_centroid_Ok.
  destruct (eqb_not_nan _ _ Hxm) as [Hx _].
  pose proof (collect_Forall2 _ _ _ Hd) as Hcol.
  destruct (Forall2_lookup_r _ _ _ _ _ Hcol Hi) as (s & _ & Hdist). cbv zeta in Hdist.
  unfold not_nan.
  destruct (F64.is_nan p.1) eqn:H1; [|destruct (F64.is_nan p.2) eqn:H2; [|done]].
  - rewrite (euclidean_distance_nan_coordinate _ _ _ _ _ (or_introl H1) Hdist) in Hx. done.
  - rewrite (euclidean_distance_nan_coordinate _ _ _ _ _ (or_intror H2) Hdist) in Hx. done.
Qed.

Lemma for_each_assign_Raise samples datapoints clusters0 e :
  length clusters0 = length samples →
  for_each (assign samples) datapoints clusters0 = Raise e →
  ∃ p, p ∈ datapoints ∧ closest_centroid samples p = Raise e.
Proof.
  revert clusters0. induction datapoints as [|p l IH]; intros clusters0 Hlen; [done|].
  cbn [for_each]. destruct (closest_centroid samples p) as [i|e'] eqn:Hp.
  - assert (∃ clusters1, assign samples clusters0 p = Ok clusters1 ∧
                         length clusters1 = length samples) as (clusters1 & -> & Hlen1).
    { unfold assign. rewrite Hp. cbn. unfold append_at.
      pose proof (closest_centroid_lt _ _ _ Hp) as Hlt. rewrite <- Hlen in Hlt.
      destruct (lookup_lt_is_Some_2 clusters0 i Hlt) as [c ->].
      eexists. split; [done|]. by rewrite length_insert. }
    cbn. intros (q & Hq & Hrun)%IH; [|done]. exists q. split; [by right|done].
  - unfold assign. rewrite Hp. cbn. intros [= <-]. exists p. split; [by left|done].
Qed.

(** In a run, the seed at position [j] is nearest to itself or to a seed
    at computed distance zero. *)
Lemma closest_centroid_of_seed samples j s i :
  samples !! j = Some s → closest_centroid samples s = Ok i →
  i = j ∨ ∃ t, samples !! i = Some t ∧ nonzero_distance t s = false.
Proof.
  intros Hj (distances & m & x & Hd & Hm & Hi & Hxm & _)%closest_centroid_Ok.
  destruct (decide (i = j)) as [|Hne]; [by left|right].
  destruct (eqb_not_nan _ _ Hxm) as [Hx Hmn].
  pose proof (np_amin_not_nan _ _ Hm Hmn) as Hall.
  destruct (np_amin_spec distances) as (m' & Hm' & _ & _ & Hle); [by intros ->|done|].
  rewrite Hm in Hm'. injection Hm' as <-.
  pose proof (collect_Forall2 _ _ _ Hd) as Hcol.
  rewrite Forall_forall in Hall, Hle.
  destruct (Forall2_lookup_l _ _ _ _ _ Hcol Hj) as (dj & Hdj & Hself).
  apply euclidean_distance_self in Hself;
    [|apply Hall; by eapply list_elem_of_lookup_2]. subst dj.
  destruct (Forall2_lookup_r _ _ _ _ _ Hcol Hi) as (t & Ht & Hdist). cbv zeta in Hdist.
  exists t. split; [done|]. unfold nonzero_distance. rewrite Hdist.
  apply negb_false_iff, leb_antisym.
  - eapply leb_trans; [by apply eqb_leb|]. apply Hle. by eapply list_elem_of_lookup_2.
  - by eapply euclidean_distance_nonneg.
Qed.

End Runs.

(** X7.  With one cluster requested, the single cluster returned is the
    whole dataset, in its order. *)
Theorem init_centroids_one_cluster datapoints draw clusters :
  valid_draw (length datapoints) 1 draw →
  init_centroids datapoints 1 draw = Ok clusters →
  clusters = [datapoints].
Proof.
  intros Hdraw Hrun.
  destruct (init_centroids_Ok _ _ _ _ Hrun) as (samples & Hs & Hloop).
  destruct (random_sample_valid _ _ _ _ Hdraw Hs) as [_ Hlen].
  destruct (init_centroids_clusters _ _ _ _ _ Hs Hrun) as [Hlen' Hcl].
  apply for_each_assign in Hloop as (_ & _ & Hdef).
  assert (length samples = 1) as Hone by lia.
  assert (assigned_to samples 0 datapoints = datapoints) as Hall.
  { apply filter_all. eapply Forall_impl; [exact Hdef|]. cbn.
    intros p [i Hi]. pose proof (closest_centroid_lt _ _ _ Hi). rewrite Hi.
    f_equal. lia. }
  specialize (Hcl 0). rewrite Hall in Hcl.
  destruct clusters as [|c [|c' clusters]]; cbn in Hlen'; try lia.
  cbn in Hcl. f_equal. assert (Some c = Some datapoints) as [= ->]; [apply Hcl; lia|done].
Qed.

Lemma init_centroids_one_cluster_witness :
  [[origin; east6; east1]] = [[origin; east6; east1]].
Proof.
  apply (init_centroids_one_cluster [origin; east6; east1] [2]).
  - apply (bool_decide_unpack _). vm_compute. exact I.
  - vm_compute. reflexivity.
Defined.

(** X8.  In a run whose seeds are pairwise at a computed distance other
    than zero, every seed is put in its own cluster: no cluster is
    empty. *)
Theorem init_centroids_seed_in_own_cluster datapoints number_clusters draw samples clusters :
  random_sample datapoints number_clusters draw = Ok samples →
  init_centroids datapoints number_clusters draw = Ok clusters →
  (∀ i j s t, i ≠ j → samples !! i = Some s → samples !! j = Some t →
              nonzero_distance s t = true) →
  ∀ j s, samples !! j = Some s →
         ∃ cluster, clusters !! j = Some cluster ∧ s ∈ cluster.
Proof.
  intros Hs Hrun Hapart j s Hj.
  destruct (init_centroids_clusters _ _ _ _ _ Hs Hrun) as [_ Hcl].
  destruct (init_centroids_Ok _ _ _ _ Hrun) as (samples' & Hs' & Hloop).
  rewrite Hs in Hs'. injection Hs' as <-.
  apply for_each_assign in Hloop as (_ & _ & Hdef).
  assert (s ∈ datapoints) as Hin.
  { eapply random_sample_subseteq; [done|]. by eapply list_elem_of_lookup_2. }
  rewrite Forall_forall in Hdef. destruct (Hdef s Hin) as [i Hi].
  exists (assigned_to samples j datapoints). split.
  - apply Hcl. by eapply lookup_lt_Some.
  - apply list_elem_of_filter. split; [|done].
    destruct (closest_centroid_of_seed samples j s i Hj Hi) as [->|(t & Ht & Hz)]; [done|].
    destruct (decide (i = j)) as [->|Hne]; [done|].
    by rewrite (Hapart i j t s Hne Ht Hj) in Hz.
Qed.

Lemma init_centroids_seed_in_own_cluster_witness :
  ∃ cluster, [[east6; east3]; [origin; east1]] !! 0 = Some cluster ∧ east6 ∈ cluster.
Proof.
  apply (init_centroids_seed_in_own_cluster [origin; east6; east1; east3] 2 [1; 0]
           [east6; origin]).
  - vm_compute. reflexivity.
  - vm_compute. reflexivity.
  - intros [|[|i]] [|[|j]] s t Hne; cbn; intros [= <-] [= <-];
      try done; vm_compute; reflexivity.
  - reflexivity.
Defined.

(** X9.  For a valid number of clusters, a run of [init_centroids] that
    fails does so in the search of the nearest seed of some point of the
    dataset, with [OverflowError] or [IndexError]; the append into the
    list of clusters never fails. *)
Theorem init_centroids_failures datapoints number_clusters draw e :
  (1 ≤ number_clusters ≤ Z.of_nat (length datapoints))%Z →
  valid_draw (length datapoints) number_clusters draw →
  init_centroids datapoints number_clusters draw = Raise e →
  ∃ samples p,
    random_sample datapoints number_clusters draw = Ok samples ∧
    p ∈ datapoints ∧
    closest_centroid samples p = Raise e ∧
    (e = OverflowError ∨ e = IndexError).
Proof.
  intros Hk Hdraw. unfold init_centroids.
  destruct (random_sample datapoints number_clusters draw) as [samples|e'] eqn:Hs;
    [|apply random_sample_Raise in Hs; lia].
  destruct (random_sample_valid _ _ _ _ Hdraw Hs) as [_ Hlen]. cbn.
  intros (p & Hp & Hrun)%for_each_assign_Raise; [|by rewrite length_fmap].
  exists samples, p. split_and!; [done..|].
  destruct (closest_centroid_failures_kinds _ _ _ Hrun) as [[-> ->]|H]; [|done].
  cbn in Hlen. lia.
Qed.

Lemma init_centroids_failures_witness :
  ∃ samples p,
    random_sample [origin; far_east] 1 [0] = Ok samples ∧
    p ∈ [origin; far_east] ∧
    closest_centroid samples p = Raise OverflowError ∧
    (OverflowError = OverflowError ∨ OverflowError = IndexError).
Proof.
  apply (init_centroids_failures [origin; far_east] 1 [0] OverflowError).
  - cbn. lia.
  - apply (bool_decide_unpack _). vm_compute. exact I.
  - vm_compute. reflexivity.
Defined.

(** X10.  A dataset with a NaN coordinate in one of its points cannot be
    clustered: for every valid number of clusters and every draw,
    [init_centroids] raises [IndexError] or [OverflowError]. *)
Theorem init_centroids_nan_coordinate datapoints number_clusters draw p :
  (1 ≤ number_clusters ≤ Z.of_nat (length datapoints))%Z →
  valid_draw (length datapoints) number_clusters draw →
  p ∈ datapoints →
  F64.is_nan p.1 = true ∨ F64.is_nan p.2 = true →
  ∃ e, init_centroids datapoints number_clusters draw = Raise e ∧
       (e = IndexError ∨ e = OverflowError).
Proof.
  intros Hk Hdraw Hp Hnan.
  destruct (init_centroids datapoints number_clusters draw) as [clusters|e] eqn:Hrun.
  - exfalso.
    destruct (init_centroids_Ok _ _ _ _ Hrun) as (samples & _ & Hloop).
    apply for_each_assign in Hloop as (_ & _ & Hdef).
    rewrite Forall_forall in Hdef. destruct (Hdef p Hp) as [i Hi].
    destruct (closest_centroid_Ok_not_nan _ _ _ Hi) as [H1 H2].
    unfold not_nan in *. destruct Hnan; congruence.
  - exists e. split; [done|].
    unfold init_centroids in Hrun.
    destruct (random_sample datapoints number_clusters draw) as [samples|e'] eqn:Hs;
      [|apply random_sample_Raise in Hs; lia].
    destruct (random_sample_valid _ _ _ _ Hdraw Hs) as [_ Hlen]. cbn in Hrun.
    apply for_each_assign_Raise in Hrun as (q & _ & Hq); [|by rewrite length_fmap].
    apply closest_centroid_failures_kinds in Hq as [[-> ->]|[->| ->]];
      [cbn in Hlen; lia|by right|by left].
Qed.

Lemma init_centroids_nan_coordinate_witness :
  ∃ e, init_centroids [origin; nowhere] 1 [0] = Raise e ∧
       (e = IndexError ∨ e = OverflowError).
Proof.
  apply (init_centroids_nan_coordinate [origin; nowhere] 1 [0] nowhere).
  - cbn. lia.
  - apply (bool_decide_unpack _). vm_compute. exact I.
  - apply (bool_decide_unpack _). vm_compute. exact I.
  - left. reflexivity.
Defined.

(** ** The report of a run: [init_centroids] followed by [get_country] *)

Section Report.

Implicit Types (data : dict) (samples datapoints : list Point).

Lemma filter_fmap {A B} (f : A → B) (P : B → Prop) `{!∀ b, Decision (P b)} (l : list A) :
  filter P (f <$> l) = f <$> filter (λ a, P (f a)) l.
Proof.
  induction l as [|a l IH]; [done|]. cbn [fmap list_fmap].
  destruct (decide (P (f a))) as [Ha|Ha].
  - rewrite !filter_cons_True by done. cbn. by f_equal.
  - by rewrite !filter_cons_False by done.
Qed.

Lemma NoDup_fst_unique {A B} (l : list (A * B)) k v v' :
  NoDup (l.*1) → (k, v) ∈ l → (k, v') ∈ l → v = v'.
Proof.
  induction l as [|[k0 v0] l IH]; cbn; [by intros _ ?%elem_of_nil|].
  intros [Hk0 Hl]%NoDup_cons H1%elem_of_cons H2%elem_of_cons.
  destruct H1 as [H1|H1], H2 as [H2|H2]; simplify_eq.
  - done.
  - exfalso. apply Hk0, list_elem_of_fmap. by exists (k0, v').
  - exfalso. apply Hk0, list_elem_of_fmap. by exists (k0, v).
  - by apply IH.
Qed.

(** A point of the dataset is found in cluster [j] by [in] exactly when its
    own nearest seed is seed [j]. *)
Lemma point_in_assigned samples j datapoints p :
  p ∈ datapoints →
  point_in p (assigned_to samples j datapoints) = true ↔
  closest_centroid samples p = Ok j.
Proof.
  intros Hp. rewrite point_in_spec. split.
  - intros (q & [Hq _]%list_elem_of_filter & Heq).
    by rewrite <- (closest_centroid_point_eqb samples q p Heq).
  - intros Hrun. exists p. split; [by apply list_elem_of_filter|].
    destruct (closest_centroid_Ok_not_nan _ _ _ Hrun) as [H1 H2].
    unfold point_eqb. by rewrite !eqb_refl.
Qed.

Lemma matching_countries_assigned samples j data :
  matching_countries (assigned_to samples j (data.*2)) data
  = (filter (λ item, closest_centroid samples item.2 = Ok j) data).*1.
Proof.
  unfold matching_countries. f_equal. apply filter_iff_elem.
  intros [country point] Hin. cbn. apply point_in_assigned.
  apply list_elem_of_fmap. by exists (country, point).
Qed.

End Report.

(** X11.  In a run on the points of a dictionary, the number that
    [get_country] prints for a cluster is the number of points of the
    cluster. *)
Theorem get_country_counts_cluster (data : dict) number_clusters draw clusters j cluster :
  init_centroids (data.*2) number_clusters draw = Ok clusters →
  clusters !! j = Some cluster →
  get_country cluster data =
    ([[Txt (join ", " (matching_countries cluster data))];
      [Txt "Number of countries in the cluster: "; Int (length cluster)]], Ok ()).
Proof.
  intros Hrun Hj.
  destruct (init_centroids_Ok _ _ _ _ Hrun) as (samples & Hs & _).
  destruct (init_centroids_clusters _ _ _ _ _ Hs Hrun) as [Hlen Hcl].
  assert (j < length samples) as Hlt by (rewrite <- Hlen; by eapply lookup_lt_Some).
  rewrite (Hcl j Hlt) in Hj. injection Hj as <-.
  unfold get_country. rewrite countries_of_filter. cbn [app].
  rewrite matching_countries_assigned, length_fmap.
  unfold assigned_to. by rewrite filter_fmap, length_fmap.
Qed.

Lemma get_country_counts_cluster_witness :
  get_country [east1; east1] three_countries =
    ([[Txt (join ", " (matching_countries [east1; east1] three_countries))];
      [Txt "Number of countries in the cluster: "; Int (length [east1; east1])]], Ok ()).
Proof.
  apply (get_country_counts_cluster three_countries 2 [0; 1]
           [[east1; east1]; [east6]] 0 [east1; east1]).
  - vm_compute. reflexivity.
  - reflexivity.
Defined.

(** X12.  In a run on the points of a dictionary (whose keys are
    distinct), every country is listed by [get_country] for exactly one
    cluster. *)
Theorem get_country_one_cluster_per_country (data : dict) number_clusters draw clusters :
  NoDup (data.*1) →
  init_centroids (data.*2) number_clusters draw = Ok clusters →
  ∀ country point, (country, point) ∈ data →
    ∃ j cluster,
      clusters !! j = Some cluster ∧
      country ∈ matching_countries cluster data ∧
      ∀ j' cluster', clusters !! j' = Some cluster' →
                     country ∈ matching_countries cluster' data → j' = j.
Proof.
  intros Hkeys Hrun country point Hin.
  destruct (init_centroids_Ok _ _ _ _ Hrun) as (samples & Hs & Hloop).
  destruct (init_centroids_clusters _ _ _ _ _ Hs Hrun) as [Hlen Hcl].
  apply for_each_assign in Hloop as (_ & _ & Hdef).
  assert (point ∈ data.*2) as Hpoint.
  { apply list_elem_of_fmap. by exists (country, point). }
  rewrite Forall_forall in Hdef. destruct (Hdef point Hpoint) as [i Hi].
  pose proof (closest_centroid_lt _ _ _ Hi) as Hlt.
  exists i, (assigned_to samples i (data.*2)). split_and!.
  - by apply Hcl.
  - rewrite matching_countries_assigned. apply list_elem_of_fmap.
    exists (country, point). split; [done|]. by apply list_elem_of_filter.
  - intros j' cluster' Hj' Hc.
    assert (j' < length samples) as Hlt' by (rewrite <- Hlen; by eapply lookup_lt_Some).
    rewrite (Hcl j' Hlt') in Hj'. injection Hj' as <-.
    rewrite matching_countries_assigned in Hc.
    apply list_elem_of_fmap in Hc as ([country' point'] & Hc & [Hrun' Hin']%list_elem_of_filter).
    cbn in Hc, Hrun'. subst country'.
    assert (point' = point) as ->.
    { eapply NoDup_fst_unique; [exact Hkeys|exact Hin'|exact Hin]. }
    congruence.
Qed.

Lemma get_country_one_cluster_per_country_witness :
  ∃ j cluster,
    [[east1; east1]; [east6]] !! j = Some cluster ∧
    "Sweden" ∈ matching_countries cluster three_countries ∧
    ∀ j' cluster', [[east1; east1]; [east6]] !! j' = Some cluster' →
                   "Sweden" ∈ matching_countries cluster' three_countries → j' = j.
Proof.
  apply (get_country_one_cluster_per_country three_countries 2 [0; 1]
           [[east1; east1]; [east6]]) with (point := east1).
  - apply (bool_decide_unpack _). vm_compute. exact I.
  - vm_compute. reflexivity.
  - apply (bool_decide_unpack _). vm_compute. exact I.
Defined.

(** ** The dictionary of [read_csv] *)

Section Dictionary.

Variable py_float : string → result float.

Implicit Types (d data : dict) (row : list string) (rows : list (list string)).

(** Assigning to a key: a key that is present keeps its place, a new key
    goes to the end. *)
Lemma dict_set_keys d k v :
  (dict_set d k v).*1 = if decide (k ∈ d.*1) then d.*1 else d.*1 ++ [k].
Proof.
  induction d as [|[k' v'] d IH]; cbn.
  - rewrite decide_False; [done|]. apply not_elem_of_nil.
  - destruct (decide (k = k')) as [->|Hne]; cbn.
    + rewrite decide_True; [done|]. by left.
    + rewrite IH. destruct (decide (k ∈ d.*1)) as [Hin|Hin].
      * rewrite decide_True; [done|]. by right.
      * rewrite decide_False; [done|]. by intros [?|?]%elem_of_cons.
Qed.

Lemma dict_set_own d k v : (k, v) ∈ dict_set d k v.
Proof.
  induction d as [|[k' v'] d IH]; cbn; [by left|].
  destruct (decide (k = k')); [by left|by right].
Qed.

Lemma dict_set_other d k v k' v' :
  k' ≠ k → (k', v') ∈ d → (k', v') ∈ dict_set d k v.
Proof.
  intros Hne. induction d as [|[k0 v0] d IH]; cbn; [by intros ?%elem_of_nil|].
  intros [[= <- <-]|Hin]%elem_of_cons.
  - rewrite decide_False by done. by left.
  - destruct (decide (k = k0)); right; [done|by apply IH].
Qed.

Lemma read_row_Ok d row d' :
  read_row py_float d row = Ok d' →
  ∃ country field1 field2 rest birthrate life_expectancy,
    row = country :: field1 :: field2 :: rest ∧
    py_float field1 = Ok birthrate ∧ py_float field2 = Ok life_expectancy ∧
    d' = dict_set d country (birthrate, life_expectancy).
Proof.
  unfold read_row.
  destruct row as [|country [|field1 [|field2 rest]]]; cbn; try done.
  - by destruct (py_float field1).
  - destruct (py_float field1) as [b|] eqn:H1; [|done]. cbn.
    destruct (py_float field2) as [l|] eqn:H2; [|done]. cbn.
    intros [= <-]. by exists country, field1, field2, rest, b, l.
Qed.

Lemma first_occurrences_NoDup seen names :
  NoDup seen → NoDup (seen ++ first_occurrences seen names).
Proof.
  revert seen. induction names as [|name names IH]; intros seen Hseen; cbn.
  - by rewrite app_nil_r.
  - destruct (decide (name ∈ seen)) as [Hin|Hin]; [by apply IH|].
    rewrite cons_middle, (assoc_L (++)). apply IH.
    apply NoDup_app. split_and!; [done| |apply NoDup_singleton].
    intros x Hx ->%list_elem_of_singleton. done.
Qed.

Lemma first_occurrences_length seen names :
  length (first_occurrences seen names) ≤ length names.
Proof.
  revert seen. induction names as [|name names IH]; intros seen; cbn; [lia|].
  destruct (decide (name ∈ seen)); cbn;
    [specialize (IH seen)|specialize (IH (seen ++ [name]))]; lia.
Qed.

Lemma read_rows_keys rows d d' :
  for_each (read_row py_float) rows d = Ok d' →
  d'.*1 = d.*1 ++ first_occurrences (d.*1) (row_names rows) ∧
  length (row_names rows) = length rows.
Proof.
  revert d. induction rows as [|row rows IH]; intros d; cbn [for_each].
  - intros [= <-]. cbn. by rewrite app_nil_r.
  - destruct (read_row py_float d row) as [d1|] eqn:Hrow; [|done]. cbn.
    apply read_row_Ok in Hrow as (country & f1 & f2 & rest & b & l & -> & _ & _ & ->).
    intros [Hkeys Hlen]%IH. unfold row_names in *. cbn. split; [|by rewrite Hlen].
    rewrite Hkeys, dict_set_keys.
    destruct (decide (country ∈ d.*1)); [done|]. by rewrite <- (assoc_L (++)).
Qed.

Lemma read_rows_keep rows d d' country v :
  for_each (read_row py_float) rows d = Ok d' →
  (country, v) ∈ d →
  (∀ row, row ∈ rows → row !! 0 ≠ Some country) →
  (country, v) ∈ d'.
Proof.
  revert d. induction rows as [|row rows IH]; intros d; cbn [for_each].
  - by intros [= <-].
  - destruct (read_row py_float d row) as [d1|] eqn:Hrow; [|done]. cbn.
    apply read_row_Ok in Hrow as (c & f1 & f2 & rest & b & l & -> & _ & _ & ->).
    intros Hrun Hin Hlater. apply (IH _ Hrun).
    + apply dict_set_other; [|done]. intros ->. by apply (Hlater (c :: f1 :: f2 :: rest)); [left|].
    + intros row Hrow. apply Hlater. by right.
Qed.

Lemma read_rows_last rows d d' i country field1 field2 rest :
  for_each (read_row py_float) rows d = Ok d' →
  rows !! i = Some (country :: field1 :: field2 :: rest) →
  (∀ i' row, i < i' → rows !! i' = Some row → row !! 0 ≠ Some country) →
  ∃ birthrate life_expectancy,
    py_float field1 = Ok birthrate ∧ py_float field2 = Ok life_expectancy ∧
    (country, (birthrate, life_expectancy)) ∈ d'.
Proof.
  revert d i. induction rows as [|row rows IH]; intros d i; cbn [for_each]; [done|].
  destruct (read_row py_float d row) as [d1|] eqn:Hrow; [|done]. cbn.
  intros Hrun Hi Hlater. destruct i as [|i]; cbn in Hi.
  - injection Hi as ->.
    apply read_row_Ok in Hrow as (c & f1 & f2 & rest' & b & l & [= <- <- <- <-] & H1 & H2 & ->).
    exists b, l. split_and!; [done|done|].
    apply (read_rows_keep _ _ _ _ _ Hrun); [apply dict_set_own|].
    intros row [i' Hi']%list_elem_of_lookup. apply (Hlater (S i')); [lia|done].
  - apply (IH d1 i Hrun Hi). intros i' row' Hlt Hi'. apply (Hlater (S i')); [lia|done].
Qed.

Lemma read_rows_NoDup rows data :
  for_each (read_row py_float) rows [] = Ok data → NoDup (data.*1).
Proof.
  intros [Hkeys _]%read_rows_keys. rewrite Hkeys. cbn.
  apply (first_occurrences_NoDup [] (row_names rows)). constructor.
Qed.

Lemma read_csv_rows fs file header rows out data :
  fs file = Some (header :: rows) →
  read_csv py_float fs file = (out, Ok data) →
  out = [] ∧ for_each (read_row py_float) rows [] = Ok data.
Proof.
  unfold read_csv, py_lift. intros ->. intros [= <- Hrun]. split; [done|exact Hrun].
Qed.

End Dictionary.

(** X13.  The dataset that [read_csv] returns for a file has one entry
    per country name, in the order in which the names first occur in the
    rows after the header; its keys are pairwise distinct and it has at
    most as many entries as the file has rows. *)
Theorem read_csv_keys py_float fs file header rows out data :
  fs file = Some (header :: rows) →
  read_csv py_float fs file = (out, Ok data) →
  data.*1 = first_occurrences [] (row_names rows) ∧
  NoDup (data.*1) ∧
  length data ≤ length rows.
Proof.
  intros Hfile [_ Hrun]%(read_csv_rows _ _ _ _ _ _ _ Hfile).
  destruct (read_rows_keys _ _ _ _ Hrun) as [Hkeys Hlen]. cbn in Hkeys.
  split_and!; [done|by eapply read_rows_NoDup|].
  - rewrite <- (length_fmap fst data), Hkeys, <- Hlen.
    apply first_occurrences_length.
Qed.

Lemma read_csv_keys_witness :
  repeated_data.*1 = first_occurrences [] (row_names repeated_rows) ∧
  NoDup (repeated_data.*1) ∧
  length repeated_data ≤ length repeated_rows.
Proof.
  apply (read_csv_keys float_of_decimal repeated_files "both.csv"
           ["Countries"; "BirthRate"; "LifeExpectancy"] repeated_rows [] repeated_data).
  - vm_compute. reflexivity.
  - vm_compute. reflexivity.
Defined.

Example read_csv_repeated_country :
  ∃ b l b' l',
    repeated_data = [("Albania", (b, l)); ("Norway", (b', l'))] ∧
    float_of_decimal "16.3" = Ok b ∧ float_of_decimal "76.8" = Ok l.
Proof. do 4 eexists. split_and!; vm_compute; reflexivity. Qed.

(** X14.  When a country name occurs in several rows, the dataset holds
    the numbers of the last of these rows. *)
Theorem read_csv_last_row_wins py_float fs file header rows out data
    i country field1 field2 rest :
  fs file = Some (header :: rows) →
  read_csv py_float fs file = (out, Ok data) →
  rows !! i = Some (country :: field1 :: field2 :: rest) →
  (∀ i' row, i < i' → rows !! i' = Some row → row !! 0 ≠ Some country) →
  ∃ birthrate life_expectancy,
    py_float field1 = Ok birthrate ∧ py_float field2 = Ok life_expectancy ∧
    (country, (birthrate, life_expectancy)) ∈ data ∧
    ∀ v, (country, v) ∈ data → v = (birthrate, life_expectancy).
Proof.
  intros Hfile [_ Hrun]%(read_csv_rows _ _ _ _ _ _ _ Hfile) Hi Hlater.
  destruct (read_rows_last _ _ _ _ _ _ _ _ _ Hrun Hi Hlater) as (b & l & H1 & H2 & Hin).
  exists b, l. split_and!; [done..|].
  intros v Hv. eapply NoDup_fst_unique; [by eapply read_rows_NoDup|done|done].
Qed.

Lemma read_csv_last_row_wins_witness :
  ∃ birthrate life_expectancy,
    float_of_decimal "16.3" = Ok birthrate ∧
    float_of_decimal "76.8" = Ok life_expectancy ∧
    ("Albania", (birthrate, life_expectancy)) ∈ repeated_data ∧
    ∀ v, ("Albania", v) ∈ repeated_data → v = (birthrate, life_expectancy).
Proof.
  apply (read_csv_last_row_wins float_of_decimal repeated_files "both.csv"
           ["Countries"; "BirthRate"; "LifeExpectancy"] repeated_rows [] repeated_data
           2 "Albania" "16.3" "76.8" []).
  - vm_compute. reflexivity.
  - vm_compute. reflexivity.
  - reflexivity.
  - intros i' row Hlt. destruct i' as [|[|[|i']]]; try lia. done.
Defined.

(** ** [cluster_plot], [kmeans_algorithm] and [main] *)

Section Runs.

Implicit Types (centroids clusters : list (list Point)) (cmaps : list string) (data : dict).

Lemma run_bind_Ok {A B} events (a : A) (f : A → Run B) :
  run_bind (events, Ok a) f = (events ++ (f a).1, (f a).2).
Proof. unfold run_bind. by destruct (f a). Qed.

Lemma plot_clusters_spec start centroids cmaps :
  start ≤ length cmaps →
  plot_clusters start centroids cmaps =
    (concat (zip_with cluster_calls centroids (drop start cmaps)),
     if decide (start + length centroids ≤ length cmaps) then Ok () else Raise IndexError).
Proof.
  revert start. induction centroids as [|cluster centroids IH]; intros start Hle.
  - cbn. rewrite decide_True by lia. done.
  - cbn [plot_clusters]. rewrite coordinate_lists. cbn [app].
    unfold index.
    destruct (cmaps !! start) as [colour|] eqn:Hc.
    + pose proof (lookup_lt_Some _ _ _ Hc) as Hlt.
      rewrite (drop_S _ _ _ Hc). cbn [zip_with concat].
      unfold run_lift. rewrite run_bind_Ok. unfold plot.
      rewrite !run_bind_Ok, (IH (S start)) by lia. cbn [fst snd app length].
      f_equal. destruct (decide (S start + length centroids ≤ length cmaps)),
        (decide (start + S (length centroids) ≤ length cmaps)); done || lia.
    + apply lookup_ge_None in Hc. rewrite drop_ge by done.
      rewrite zip_with_nil_r. cbn. rewrite decide_False by lia. done.
Qed.

Lemma zip_with_take_left {A B C} (f : A → B → C) (l : list A) (k : list B) :
  zip_with f l k = zip_with f (take (length k) l) k.
Proof.
  revert k. induction l as [|a l IH]; intros [|b k]; cbn; try done.
  by rewrite <- IH.
Qed.

Lemma get_country_Ok cluster data : (get_country cluster data).2 = Ok ().
Proof. reflexivity. Qed.

Lemma mean_data_Ok (cluster : list Point) : (mean_data cluster).2 = Ok ().
Proof. by rewrite mean_data_output. Qed.

Lemma of_py_get_country cluster data :
  of_py (get_country cluster data) = (Printed <$> (get_country cluster data).1, Ok ()).
Proof. reflexivity. Qed.

Lemma of_py_mean_data (cluster : list Point) :
  of_py (mean_data cluster) = (Printed <$> (mean_data cluster).1, Ok ()).
Proof. unfold of_py. by rewrite mean_data_Ok. Qed.

Lemma report_clusters_spec start centroids cmaps data :
  start + length centroids ≤ length cmaps →
  report_clusters start centroids cmaps data =
    (Printed <$> concat (imap (λ n item, cluster_report data (start + n) item.1 item.2)
                              (zip centroids (drop start cmaps))),
     Ok ()).
Proof.
  revert start. induction centroids as [|cluster centroids IH]; intros start Hle.
  - done.
  - cbn [report_clusters]. unfold index.
    cbn [length] in Hle.
    destruct (lookup_lt_is_Some_2 cmaps start) as [colour Hc]; [lia|].
    rewrite Hc, (drop_S _ _ _ Hc), (IH (S start)) by lia.
    rewrite of_py_get_country, of_py_mean_data.
    unfold of_py, print. cbv [run_bind run_lift]. cbn [fst snd zip zip_with].
    rewrite imap_cons. cbn [concat fst snd]. f_equal.
    unfold cluster_report. rewrite Nat.add_0_r.
    rewrite !fmap_app. cbn [fmap list_fmap app]. f_equal.
    rewrite <- !(assoc_L (++)). do 4 f_equal.
    apply imap_ext. intros n item _. unfold compose.
    by replace (start + S n) with (S start + n) by lia.
Qed.

(** A draw of all the positions of a list gives a permutation of the
    list. *)
Lemma omap_lookup_seq {A} (l pre : list A) :
  omap (λ i, (pre ++ l) !! i) (seq (length pre) (length l)) = l.
Proof.
  revert pre. induction l as [|a l IH]; intros pre; [done|]. cbn.
  rewrite list_lookup_middle by done. f_equal.
  specialize (IH (pre ++ [a])). rewrite length_app, Nat.add_1_r in IH.
  by rewrite <- (assoc_L (++)) in IH.
Qed.

Lemma random_sample_all {A} (population : list A) draw chosen :
  valid_draw (length population) (Z.of_nat (length population)) draw →
  random_sample population (Z.of_nat (length population)) draw = Ok chosen →
  chosen ≡ₚ population.
Proof.
  intros (Hlen & Hnd & Hlt) [_ ->]%random_sample_Ok.
  assert (draw ≡ₚ seq 0 (length population)) as ->.
  { apply submseteq_length_Permutation.
    - apply NoDup_submseteq; [done|]. intros k Hk.
      rewrite Forall_forall in Hlt. apply elem_of_seq. specialize (Hlt k Hk). lia.
    - rewrite length_seq. lia. }
  pose proof (omap_lookup_seq population []) as H. cbn in H. by rewrite H.
Qed.

End Runs.

(** X15.  [cluster_plot] plots the clusters one after the other, each in
    the colour at its position, and then shows the figure; with more
    clusters than colours it plots as many clusters as there are colours
    and raises [IndexError] without showing the figure. *)
Theorem cluster_plot_outcome centroids cmaps :
  cluster_plot centroids cmaps =
    if decide (length centroids ≤ length cmaps)
    then (concat (zip_with cluster_calls centroids cmaps) ++ [Plotted Show], Ok ())
    else (concat (zip_with cluster_calls (take (length cmaps) centroids) cmaps),
          Raise IndexError).
Proof.
  unfold cluster_plot. rewrite plot_clusters_spec by lia. cbn [drop Nat.add].
  case_decide as Hlen; cbn.
  - done.
  - f_equal. f_equal.
    apply zip_with_take_left.
Qed.

(** X16.  What [kmeans_algorithm] does.  A failure of [init_centroids] is
    passed on before anything is plotted or printed.  With at most ten
    clusters, the clusters are plotted in the colours of a permutation of
    the palette, the figure is shown, and six lines are printed per
    cluster: a heading with the number and the colour of the cluster, the
    two lines of [get_country] and the three lines of [mean_data].  With
    more than ten clusters, ten clusters are plotted and [IndexError] is
    raised: the figure is not shown and nothing is printed. *)
Theorem kmeans_algorithm_outcome datapoints number_of_clusters data colour_draw draw :
  valid_draw 10 10 colour_draw →
  match init_centroids datapoints number_of_clusters draw with
  | Raise e =>
      kmeans_algorithm datapoints number_of_clusters data colour_draw draw = ([], Raise e)
  | Ok clusters =>
      ∃ cmaps, cmaps ≡ₚ palette ∧
        kmeans_algorithm datapoints number_of_clusters data colour_draw draw =
          if decide (length clusters ≤ 10)
          then (concat (zip_with cluster_calls clusters cmaps) ++ [Plotted Show] ++
                (Printed <$>
                 concat (imap (λ index item, cluster_report data index item.1 item.2)
                              (zip clusters cmaps))),
                Ok ())
          else (concat (zip_with cluster_calls (take 10 clusters) cmaps), Raise IndexError)
  end.
Proof.
  intros Hdraw. unfold kmeans_algorithm.
  destruct (random_sample palette (Z.of_nat (length palette)) colour_draw)
    as [cmaps|e] eqn:Hc; [|by apply random_sample_Raise in Hc as [[] _]].
  pose proof (random_sample_all palette colour_draw cmaps Hdraw Hc) as Hperm.
  assert (length cmaps = 10) as Hlen by (by rewrite Hperm).
  destruct (init_centroids datapoints number_of_clusters draw) as [clusters|e]; [|done].
  exists cmaps. split; [done|].
  unfold run_lift. rewrite !run_bind_Ok. cbn [app fst snd].
  rewrite <- surjective_pairing.
  pose proof (plot_clusters_spec 0 clusters cmaps) as Hplot.
  unfold cluster_plot. rewrite Hplot by lia. cbn [drop Nat.add]. rewrite Hlen.
  clear Hplot. destruct (decide (length clusters ≤ 10)) as [Hk|Hk].
  - rewrite (report_clusters_spec 0 clusters cmaps data) by lia.
    cbn [drop Nat.add]. unfold plot. cbv [run_bind].
    f_equal. by rewrite <- (assoc_L (++)).
  - cbv [run_bind]. cbn [drop]. do 2 f_equal.
    rewrite <- Hlen. apply zip_with_take_left.
Qed.

Lemma kmeans_algorithm_outcome_witness :
  match init_centroids [origin; east6; east1; east3] 2 [1; 0] with
  | Raise e =>
      kmeans_algorithm [origin; east6; east1; east3] 2 three_countries
        [9; 8; 7; 6; 5; 4; 3; 2; 1; 0] [1; 0] = ([], Raise e)
  | Ok clusters =>
      ∃ cmaps, cmaps ≡ₚ palette ∧
        kmeans_algorithm [origin; east6; east1; east3] 2 three_countries
          [9; 8; 7; 6; 5; 4; 3; 2; 1; 0] [1; 0] =
          if decide (length clusters ≤ 10)
          then (concat (zip_with cluster_calls clusters cmaps) ++ [Plotted Show] ++
                (Printed <$>
                 concat (imap (λ index item,
                                 cluster_report three_countries index item.1 item.2)
                              (zip clusters cmaps))),
                Ok ())
          else (concat (zip_with cluster_calls (take 10 clusters) cmaps), Raise IndexError)
  end.
Proof.
  apply (kmeans_algorithm_outcome [origin; east6; east1; east3] 2 three_countries
           [9; 8; 7; 6; 5; 4; 3; 2; 1; 0] [1; 0]).
  apply (bool_decide_unpack _). vm_compute. exact I.
Defined.

(** X17.  After a file name that does not exist, [main] prints the
    message of [read_csv] and still asks for the number of clusters; with
    the empty dataset every number but 0 then ends in [ValueError], and 0
    shows an empty figure and prints no report. *)
Theorem main_missing_file py_float py_int fs file_answer number_answer
    number_cluster colour_draw draw :
  fs file_answer = None →
  py_int number_answer = Ok number_cluster →
  (number_cluster = 0%Z → draw = []) →
  main py_float py_int fs file_answer number_answer colour_draw draw =
    ([Asked file_prompt; Printed [Txt "Please enter the correct file name!"];
      Asked number_prompt]
     ++ (if decide (number_cluster = 0%Z) then [Plotted Show] else []),
     if decide (number_cluster = 0%Z) then Ok () else Raise ValueError).
Proof.
  intros Hfile Hint Hdraw.
  assert (kmeans_algorithm [] number_cluster [] colour_draw draw =
          (if decide (number_cluster = 0%Z) then [Plotted Show] else [],
           if decide (number_cluster = 0%Z) then Ok () else Raise ValueError)) as Hrun.
  { unfold kmeans_algorithm.
    destruct (random_sample palette (Z.of_nat (length palette)) colour_draw)
      as [cmaps|e] eqn:Hc; [|by apply random_sample_Raise in Hc as [[] _]].
    unfold init_centroids, random_sample.
    destruct (decide (number_cluster = 0%Z)) as [->|Hne].
    - rewrite Hdraw by done. reflexivity.
    - rewrite decide_False by (cbn; lia). reflexivity. }
  unfold main, read_csv. rewrite Hfile, Hint.
  cbv [run_bind ask run_lift of_py py_bind py_ret print].
  cbn [fst snd fmap list_fmap app]. rewrite Hrun.
  by destruct (decide (number_cluster = 0%Z)).
Qed.

Lemma main_missing_file_witness :
  main float_of_decimal int_of_decimal sample_files "data1953.csv" "3"
       [0; 1; 2; 3; 4; 5; 6; 7; 8; 9] [] =
    ([Asked file_prompt; Printed [Txt "Please enter the correct file name!"];
      Asked number_prompt]
     ++ (if decide (3 = 0)%Z then [Plotted Show] else []),
     if decide (3 = 0)%Z then Ok () else Raise ValueError).
Proof.
  apply (main_missing_file float_of_decimal int_of_decimal sample_files
           "data1953.csv" "3" 3).
  - vm_compute. reflexivity.
  - vm_compute. reflexivity.
  - intros H. discriminate H.
Defined.

(** A run of [main] on a file of two countries, asked for two clusters:
    the questions, the ten calls that plot the clusters, the figure, and
    twelve printed lines. *)
Example main_complete_run :
  ∃ events,
    main float_of_decimal int_of_decimal sample_files "good.csv" "2"
         [0; 1; 2; 3; 4; 5; 6; 7; 8; 9] [1; 0] = (events, Ok ()) ∧
    length events = 25 ∧ length (printed events) = 12.
Proof. eexists. split; [vm_compute; reflexivity|]. split; vm_compute; reflexivity. Qed.
